(** * docker-practice: the Express server of [src/index.ts]

    A shallow embedding of the HTTP service: the resolution of [PORT],
    the middleware stack registered on [app] (the JSON body parser and the
    two GET routes), Express's dispatch over that stack, and the responses
    written by [res.send] and [res.json].

    The program is twenty lines on top of Express; what a request gets back
    is decided by the framework functions those lines call.  They are
    embedded here by the name they have in Express 4 ([express.json] from
    body-parser, [Router.handle], [res.send], [req.fresh], finalhandler),
    and Node's [net.Server.listen] by what it does with its port argument.
    Library internals that are not computed here (the JSON grammar, the
    ETag hash, content and charset decoding, the parameter grammar of
    Content-Type, the text of the default error page) are
    fields of a [Runtime] record every definition is parameterised by, and
    every theorem holds for all of its values.  The statements proved use
    what Express 4 and Express 5 share; where the two differ (the text of
    the automatic OPTIONS answer, the handling of a failed [listen]) nothing
    is claimed. *)

From Stdlib Require Import ZArith String Ascii List Bool Lia DecimalString.
From stdpp Require Import base option list strings gmap.

Local Open Scope string_scope.
Local Open Scope Z_scope.

(** ** JavaScript values met in [index.ts] *)

Module JS.

(** The values [process.env.PORT || 5000] can take: an environment entry
    is a string or [undefined], the default is a number. *)
Inductive value : Type :=
| Undefined
| Str (s : string)
| Num (n : Z).

#[global] Instance value_eq_dec : EqDecision value.
Proof. solve_decision. Defined.

(** ToBoolean: [undefined], the empty string and [0] are falsy. *)
Definition truthy (v : value) : bool :=
  match v with
  | Undefined => false
  | Str s => negb (String.eqb s "")
  | Num n => negb (n =? 0)
  end.

(** [a || b] *)
Definition or (a b : value) : value := if truthy a then a else b.

(** Reading a property of [process.env]. *)
Definition env_get (env : gmap string string) (k : string) : value :=
  match env !! k with
  | Some s => Str s
  | None => Undefined
  end.

(** ToString of an integer number, as a template literal prints it.  This
    is the plain decimal numeral, which is what JavaScript prints for
    magnitudes below 10^21; beyond that JavaScript switches to exponent
    form, which is not embedded (the program prints 5000 and the numbers of
    the products literal). *)
Definition string_of_Z (n : Z) : string := NilZero.string_of_int (Z.to_int n).

(** ToString, for the values above. *)
Definition to_string (v : value) : string :=
  match v with
  | Undefined => "undefined"
  | Str s => s
  | Num n => string_of_Z n
  end.

End JS.

(** ** Startup: [index.ts] lines 5 and 33-35 *)

(** [const PORT = process.env.PORT || 5000;] *)
Definition PORT (env : gmap string string) : JS.value :=
  JS.or (JS.env_get env "PORT") (JS.Num 5000).

(** What the program hands to [app.listen]: the port argument and the line
    its callback prints once the server is listening. *)
Record ListenCall : Type := {
  listen_port : JS.value;
  listening_log : string
}.

(** [app.listen(PORT, () => console.log(`Server is running on http://localhost:${PORT}`))] *)
Definition listen (env : gmap string string) : ListenCall :=
  {| listen_port := PORT env;
     listening_log := "Server is running on http://localhost:" +:+ JS.to_string (PORT env) |}.

(** ** Text helpers used by the framework functions *)

Module Text.

Definition dquote : ascii := ascii_of_nat 34.
Definition backslash : ascii := ascii_of_nat 92.
Definition tab : ascii := ascii_of_nat 9.
Definition lf : ascii := ascii_of_nat 10.
Definition cr : ascii := ascii_of_nat 13.

(** Writes a literal that contains double quotes with apostrophes. *)
Fixpoint q (s : string) : string :=
  match s with
  | EmptyString => EmptyString
  | String c r => String (if Ascii.eqb c "'" then dquote else c) (q r)
  end.

(** [String.prototype.toLowerCase] on the ASCII range. *)
Definition lower_ascii (c : ascii) : ascii :=
  let n := nat_of_ascii c in
  if ((65 <=? n) && (n <=? 90))%nat then ascii_of_nat (n + 32) else c.

Fixpoint lower (s : string) : string :=
  match s with
  | EmptyString => EmptyString
  | String c r => String (lower_ascii c) (lower r)
  end.

Fixpoint drop_while (p : ascii -> bool) (s : string) : string :=
  match s with
  | EmptyString => EmptyString
  | String c r => if p c then drop_while p r else s
  end.

Fixpoint rev_acc (s acc : string) : string :=
  match s with
  | EmptyString => acc
  | String c r => rev_acc r (String c acc)
  end.

Definition rev (s : string) : string := rev_acc s EmptyString.

Definition trim (p : ascii -> bool) (s : string) : string :=
  rev (drop_while p (rev (drop_while p s))).

Definition is_space (c : ascii) : bool := Ascii.eqb c " ".
(** The ASCII characters a regular expression's [\s] matches. *)
Definition is_blank (c : ascii) : bool :=
  let n := nat_of_ascii c in
  (n =? 32)%nat || ((9 <=? n) && (n <=? 13))%nat.
(** The four characters JSON calls whitespace. *)
Definition is_json_ws (c : ascii) : bool :=
  Ascii.eqb c " " || Ascii.eqb c tab || Ascii.eqb c lf || Ascii.eqb c cr.

(** The part of [s] before the first [sep] ([s] itself when there is none). *)
Fixpoint before (sep : ascii) (s : string) : string :=
  match s with
  | EmptyString => EmptyString
  | String c r => if Ascii.eqb c sep then EmptyString else String c (before sep r)
  end.

Fixpoint has_char (c : ascii) (s : string) : bool :=
  match s with
  | EmptyString => false
  | String d r => Ascii.eqb d c || has_char c r
  end.

(** [s.split(sep)] for a one-character separator. *)
Fixpoint split (sep : ascii) (s : string) : list string :=
  match s with
  | EmptyString => [EmptyString]
  | String c r =>
      if Ascii.eqb c sep then EmptyString :: split sep r
      else match split sep r with
           | [] => [String c EmptyString]
           | h :: t => String c h :: t
           end
  end.

Fixpoint join (sep : string) (l : list string) : string :=
  match l with
  | [] => EmptyString
  | [x] => x
  | x :: r => x +:+ sep +:+ join sep r
  end.

(** First character that is not JSON whitespace, if any. *)
Definition firstchar (s : string) : option ascii :=
  match drop_while is_json_ws s with
  | EmptyString => None
  | String c _ => Some c
  end.

Definition is_digit (c : ascii) : bool :=
  let n := nat_of_ascii c in ((48 <=? n) && (n <=? 57))%nat.

Fixpoint digits_value (s : string) (acc : Z) : option Z :=
  match s with
  | EmptyString => Some acc
  | String c r =>
      if is_digit c then digits_value r (10 * acc + Z.of_nat (nat_of_ascii c - 48)) else None
  end.

(** The number a non-empty string of decimal digits spells. *)
Definition parse_decimal (s : string) : option Z :=
  match s with
  | EmptyString => None
  | _ => digits_value s 0
  end.

(** Whether every byte is below 128. *)
Fixpoint all_ascii (s : string) : bool :=
  match s with
  | EmptyString => true
  | String c r => (nat_of_ascii c <? 128)%nat && all_ascii r
  end.

Definition hex_digit (n : nat) : ascii :=
  if (n <? 10)%nat then ascii_of_nat (48 + n) else ascii_of_nat (87 + n).

End Text.

(** ** JSON values and [JSON.stringify] *)

Local Unset Elimination Schemes.
Inductive json : Type :=
| JNum (n : Z)
| JStr (s : string)
| JArr (items : list json)
| JObj (members : list (string * json)).
Local Set Elimination Schemes.

Module JSON.

(** Escaping of one character inside a JSON string literal. *)
Definition escape_char (c : ascii) : string :=
  let n := nat_of_ascii c in
  if Ascii.eqb c Text.dquote then String Text.backslash (String Text.dquote EmptyString)
  else if Ascii.eqb c Text.backslash then String Text.backslash (String Text.backslash EmptyString)
  else if (n =? 8)%nat then String Text.backslash "b"
  else if (n =? 9)%nat then String Text.backslash "t"
  else if (n =? 10)%nat then String Text.backslash "n"
  else if (n =? 12)%nat then String Text.backslash "f"
  else if (n =? 13)%nat then String Text.backslash "r"
  else if (n <? 32)%nat then
    String Text.backslash
      ("u00" +:+ String (Text.hex_digit (n / 16)) (String (Text.hex_digit (n mod 16)) EmptyString))
  else String c EmptyString.

Fixpoint escape (s : string) : string :=
  match s with
  | EmptyString => EmptyString
  | String c r => escape_char c +:+ escape r
  end.

Definition quote (s : string) : string :=
  String Text.dquote (escape s +:+ String Text.dquote EmptyString).

(** [JSON.stringify(v)] with no indentation, members in insertion order. *)
Fixpoint stringify (v : json) : string :=
  match v with
  | JNum n => JS.string_of_Z n
  | JStr s => quote s
  | JArr items => "[" +:+ Text.join "," (List.map stringify items) +:+ "]"
  | JObj members =>
      "{" +:+ Text.join ","
                (List.map (fun kv => quote (fst kv) +:+ ":" +:+ stringify (snd kv)) members)
          +:+ "}"
  end.

End JSON.

(** ** Requests and responses *)

Inductive Method : Type := GET | HEAD | POST | PUT | DELETE | PATCH | OPTIONS.

#[global] Instance Method_eq_dec : EqDecision Method.
Proof. solve_decision. Defined.

(** What Node hands to the application: [req.method], the path and the
    query of [req.url], [req.headers] (an object keyed by lower-cased header
    name) and the bytes of the entity body. *)
Record Request : Type := {
  req_method : Method;
  req_path : string;
  req_query : string;
  req_headers : gmap string string;
  req_body : string
}.

(** What the application writes back: [res.statusCode], the three response
    headers the framework sets on these paths, and the body. *)
Record Response : Type := {
  status : Z;
  content_type : option string;
  allow : option string;
  etag : option string;
  body : string
}.

#[global] Instance Response_eq_dec : EqDecision Response.
Proof. solve_decision. Defined.

(** [req.headers[name]] *)
Definition header (req : Request) (name : string) : option string :=
  req_headers req !! name.

(** A header read in a boolean context, or before [|| default]: a missing
    header and an empty value are both falsy. *)
Definition header_truthy (req : Request) (name : string) : bool :=
  match header req name with
  | Some v => negb (String.eqb v "")
  | None => false
  end.

(** ** Library internals left to the runtime *)

Inductive Decoded : Type :=
| Plain (text : string)        (* the stream inflated to this text *)
| UnsupportedEncoding          (* no decoder for the named coding *)
| CorruptStream.               (* the decoder failed on the bytes *)

(** What [net.Server.listen] sets out to do with its port argument. *)
Inductive ListenTarget : Type :=
| TcpPort (port : Z)       (* bind this TCP port *)
| AnyTcpPort               (* port 0: bind a TCP port the system picks *)
| PipePath (path : string) (* listen on the UNIX socket at this path *)
| BadPort.                 (* throw ERR_SOCKET_BAD_PORT *)

#[global] Instance ListenTarget_eq_dec : EqDecision ListenTarget.
Proof. solve_decision. Defined.

Record Runtime : Type := {
  (** whether [JSON.parse(text)] returns a value rather than throwing *)
  JSON_parse_ok : string -> bool;
  (** the [charset] parameter [content-type] reads off a Content-Type value,
      lower-cased; [None] when there is none or the value does not parse *)
  charset_of : string -> option string;
  (** zlib: the body decoded under a content coding other than [identity] *)
  inflate : string -> string -> Decoded;
  (** the entity tag Express's default (weak) [etag fn] computes for a body *)
  etag_of : string -> string;
  (** the HTML document finalhandler writes for a status *)
  error_page : Request -> Z -> string;
  (** media-typer: whether the parameter list of a Content-Type value
      (everything from the first [;]) is well formed *)
  parameters_ok : string -> bool;
  (** iconv-lite: whether it has a decoder for a charset other than
      [utf-8] *)
  encodingExists : string -> bool;
  (** iconv-lite: the text a charset decodes non-empty bytes to (byte
      order mark stripped) *)
  iconv_decode : string -> string -> string;
  (** [net.Server.listen] on a string that is neither a decimal numeral
      nor certain not to be a number *)
  listen_string : string -> ListenTarget
}.

(** ** [express.json()]: body-parser's JSON middleware, default options *)

(** A middleware or handler either calls [next()] or [next(err)]; the error
    is kept by its [err.status]. *)
Inductive Next : Type :=
| Continue
| Error (err_status : Z).

#[global] Instance Next_eq_dec : EqDecision Next.
Proof. solve_decision. Defined.

Module BodyParser.

(** [limit: '100kb'] *)
Definition limit : Z := 102400.

(** [typeis.hasBody(req)]: a Transfer-Encoding header, or a Content-Length
    header (Node only delivers numeric ones). *)
Definition hasBody (req : Request) : bool :=
  bool_decide (is_Some (header req "transfer-encoding"))
  || bool_decide (is_Some (header req "content-length")).

(** The media type of a Content-Type value: parameters dropped, spaces
    trimmed, lower-cased. *)
Definition media_type (v : string) : string :=
  Text.lower (Text.trim Text.is_space (Text.before ";" v)).

(** [shouldParse]: [typeis(req, 'application/json')].  type-is parses the
    whole value and reports no type at all when its parameter list is
    malformed. *)
Definition shouldParse (rt : Runtime) (req : Request) : bool :=
  match header req "content-type" with
  | Some v =>
      String.eqb (media_type v) "application/json"
      && (negb (Text.has_char ";" v) || parameters_ok rt v)
  | None => false
  end.

(** [getCharset(req) || 'utf-8']: a Content-Type value without [;] has no
    parameters, hence no charset. *)
Definition getCharset (rt : Runtime) (req : Request) : string :=
  match header req "content-type" with
  | Some v =>
      if Text.has_char ";" v then
        match charset_of rt v with
        | Some c => if String.eqb c "" then "utf-8" else c
        | None => "utf-8"
        end
      else "utf-8"
  | None => "utf-8"
  end.

(** [contentstream]: the body under
    [(req.headers['content-encoding'] || 'identity').toLowerCase()]. *)
Definition contentstream (rt : Runtime) (req : Request) : Decoded :=
  let encoding :=
    if header_truthy req "content-encoding"
    then Text.lower (default "" (header req "content-encoding"))
    else "identity" in
  if String.eqb encoding "identity" then Plain (req_body req)
  else inflate rt encoding (req_body req).

(** [parse(body)] with [strict: true]: an empty body is [{}]; otherwise
    the first non-blank character must open an object or an array, and
    [JSON.parse] must accept the text. *)
Definition parse (rt : Runtime) (text : string) : Next :=
  if String.eqb text "" then Continue
  else match Text.firstchar text with
       | Some c =>
           if Ascii.eqb c "{" || Ascii.eqb c "["
           then (if JSON_parse_ok rt text then Continue else Error 400)
           else Error 400
       | None => Error 400
       end.

(** [stream.length]: the Content-Length of a stream that is not inflated. *)
Definition stream_length (req : Request) : option Z :=
  if header_truthy req "content-encoding"
     && negb (String.eqb (Text.lower (default "" (header req "content-encoding"))) "identity")
  then None
  else match header req "content-length" with
       | Some v => Text.parse_decimal v
       | None => None
       end.

(** raw-body's [getDecoder(encoding)] succeeding. *)
Definition decoder_exists (rt : Runtime) (charset : string) : bool :=
  String.eqb charset "utf-8" || encodingExists rt charset.

(** The text of the bytes under a charset: nothing decodes to nothing, and
    UTF-8 leaves ASCII bytes as they are. *)
Definition decode (rt : Runtime) (charset bytes : string) : string :=
  if String.eqb bytes "" then ""
  else if String.eqb charset "utf-8" && Text.all_ascii bytes then bytes
  else iconv_decode rt charset bytes.

(** [read(req, res, next, parse, debug, options)]: the content stream, then
    raw-body (the announced length against the limit, the decoder, the
    bytes received against the limit and against the announced length),
    then [parse] on the decoded text. *)
Definition read (rt : Runtime) (req : Request) (charset : string) : Next :=
  match contentstream rt req with
  | UnsupportedEncoding => Error 415
  | stream =>
      if match stream_length req with
         | Some n => limit <? n
         | None => false
         end then Error 413
      else if negb (decoder_exists rt charset) then Error 415
      else match stream with
           | Plain bytes =>
               if limit <? Z.of_nat (String.length bytes) then Error 413
               else if match stream_length req with
                       | Some n => negb (n =? Z.of_nat (String.length bytes))
                       | None => false
                       end then Error 400
               else parse rt (decode rt charset bytes)
           | _ => Error 400
           end
  end.

(** [jsonParser(req, res, next)] *)
Definition jsonParser (rt : Runtime) (req : Request) : Next :=
  if negb (hasBody req) then Continue
  else if negb (shouldParse rt req) then Continue
  else if negb (String.prefix "utf-" (getCharset rt req)) then Error 415
  else read rt req (getCharset rt req).

End BodyParser.

(** ** Express: responses *)

Module Express.

(** What a route handler does with [res]. *)
Inductive ResCall : Type :=
| Send (text : string)       (* res.send(text) *)
| Json (value : json).       (* res.json(value) *)

(** A layer of the application's stack, as [index.ts] registers them. *)
Inductive Layer : Type :=
| Use (middleware : Request -> Next)                  (* app.use(fn) *)
| Get (route : string) (handler : Request -> ResCall).  (* app.get(route, fn) *)

(** The [fresh] module's comma-separated token list. *)
Definition parseTokenList (s : string) : list string :=
  List.map (Text.trim Text.is_space) (Text.split "," s).

(** [/(?:^|,)\s*?no-cache\s*?(?:,|$)/.test(cacheControl)] *)
Definition no_cache (cacheControl : string) : bool :=
  existsb (fun t => String.eqb (Text.trim Text.is_blank t) "no-cache")
          (Text.split "," cacheControl).

Definition etag_matches (tag candidate : string) : bool :=
  String.eqb candidate tag
  || String.eqb candidate ("W/" +:+ tag)
  || String.eqb ("W/" +:+ candidate) tag.

(** [fresh(req.headers, { etag, 'last-modified': undefined })]: the
    responses of this program never carry Last-Modified. *)
Definition fresh (req : Request) (tag : option string) : bool :=
  let modifiedSince := header_truthy req "if-modified-since" in
  let noneMatch := header_truthy req "if-none-match" in
  if negb modifiedSince && negb noneMatch then false
  else if header_truthy req "cache-control"
          && no_cache (default "" (header req "cache-control")) then false
  else if noneMatch
          && negb (String.eqb (default "" (header req "if-none-match")) "*")
          && negb (match tag with
                   | Some t =>
                       existsb (etag_matches t)
                               (parseTokenList (default "" (header req "if-none-match")))
                   | None => false
                   end) then false
  else if modifiedSince then false
  else true.

(** [req.fresh], read while the status is still the default 200. *)
Definition req_fresh (req : Request) (tag : option string) : bool :=
  match req_method req with
  | GET | HEAD => fresh req tag
  | _ => false
  end.

(** [res.send(chunk)] for a string, [ctype] being the Content-Type set so
    far (['text/html'] when none was) and [allowed] the Allow header. *)
Definition send (rt : Runtime) (req : Request)
    (allowed : option string) (ctype : string) (chunk : string) : Response :=
  let tag := if String.eqb (etag_of rt chunk) "" then None else Some (etag_of rt chunk) in
  if req_fresh req tag then
    {| status := 304; content_type := None; allow := allowed; etag := tag; body := "" |}
  else
    {| status := 200;
       content_type := Some (ctype +:+ "; charset=utf-8");
       allow := allowed;
       etag := tag;
       body := if bool_decide (req_method req = HEAD) then "" else chunk |}.

(** Carrying out a handler's call on [res]. *)
Definition respond (rt : Runtime) (req : Request) (call : ResCall) : Response :=
  match call with
  | Send text => send rt req None "text/html" text
  | Json value => send rt req None "application/json" (JSON.stringify value)
  end.

(** finalhandler: the status it takes from an error. *)
Definition getErrorStatusCode (err_status : Z) : Z :=
  if (400 <=? err_status) && (err_status <? 600) then err_status else 500.

(** finalhandler writing its HTML page. *)
Definition finalhandler (rt : Runtime) (req : Request) (code : Z) : Response :=
  {| status := code;
     content_type := Some "text/html; charset=utf-8";
     allow := None;
     etag := None;
     body := if bool_decide (req_method req = HEAD) then "" else error_page rt req code |}.

(** ** Express: routing *)

(** A literal route compiled with the defaults (case-insensitive, not
    strict, anchored at both ends): one trailing slash is optional. *)
Definition matchPath (route path : string) : bool :=
  let r := Text.lower route in
  let p := Text.lower path in
  let bare := Text.rev (match Text.rev r with
                        | String "/" rest => rest
                        | other => other
                        end) in
  String.eqb p bare || String.eqb p (bare +:+ "/").

(** [route._handles_method]: a route with only [get] also takes HEAD. *)
Definition handles_method (m : Method) : bool :=
  match m with
  | GET | HEAD => true
  | _ => false
  end.

(** [route._options()] of a route with only [get]. *)
Definition route_options : list string := ["GET"; "HEAD"].

(** [appendMethods] *)
Definition appendMethods (methods addition : list string) : list string :=
  fold_left (fun acc m => if existsb (String.eqb m) acc then acc else (acc ++ [m])%list)
            addition methods.

(** [sendOptionsResponse] *)
Definition sendOptionsResponse (rt : Runtime) (req : Request) (options : list string) : Response :=
  send rt req (Some (Text.join "," options)) "text/html" (Text.join "," options).

(** [Router.handle]: the walk over the stack.  [options] collects the
    methods of routes whose path matched an OPTIONS request. *)
Fixpoint handle (rt : Runtime) (stack : list Layer) (options : list string)
    (req : Request) : Response :=
  match stack with
  | [] =>
      match req_method req, options with
      | OPTIONS, _ :: _ => sendOptionsResponse rt req options
      | _, _ => finalhandler rt req 404
      end
  | Use middleware :: rest =>
      match middleware req with
      | Continue => handle rt rest options req
      | Error e => finalhandler rt req (getErrorStatusCode e)
      end
  | Get route handler :: rest =>
      if matchPath route (req_path req) then
        if handles_method (req_method req) then respond rt req (handler req)
        else handle rt rest
               (if bool_decide (req_method req = OPTIONS)
                then appendMethods options route_options else options)
               req
      else handle rt rest options req
  end.

End Express.

(** ** The application: [index.ts] lines 3-30 *)

Record Product : Type := {
  id : Z;
  name : string;
  price : Z
}.

(** The array literal of lines 24-28. *)
Definition products : list Product :=
  [ {| id := 1; name := "Product A"; price := 100 |};
    {| id := 2; name := "Product B"; price := 150 |};
    {| id := 3; name := "Product C"; price := 200 |} ].

(** An object literal [{ id, name, price }], keys in source order. *)
Definition product_json (p : Product) : json :=
  JObj [("id", JNum (id p)); ("name", JStr (name p)); ("price", JNum (price p))].

(** Lines 14-16: [(req, res) => { res.send("Hello, World from the Dockerize App!"); }] *)
Definition rootHandler (req : Request) : Express.ResCall :=
  Express.Send "Hello, World from the Dockerize App!".

(** Lines 22-30: [(req, res) => res.json({ products: [...] })] *)
Definition productsHandler (req : Request) : Express.ResCall :=
  Express.Json (JObj [("products", JArr (List.map product_json products))]).

(** The stack of [app] after lines 8, 14 and 22, in registration order. *)
Definition stack (rt : Runtime) : list Express.Layer :=
  [ Express.Use (BodyParser.jsonParser rt);
    Express.Get "/" rootHandler;
    Express.Get "/products" productsHandler ].

(** The module-level constants of the program: [PORT] and [app]. *)
Record Program : Type := {
  program_PORT : JS.value;
  program_app : list Express.Layer
}.

(** The program once the module body has run under environment [env]. *)
Definition start (rt : Runtime) (env : gmap string string) : Program :=
  {| program_PORT := PORT env; program_app := stack rt |}.

(** Serving one request: [app(req, res)].  Nothing in the middleware or in
    the two handlers assigns to [PORT], to [app] or to the products literal,
    so the program is handed on as it was. *)
Definition serve (rt : Runtime) (prog : Program) (req : Request) : Program * Response :=
  (prog, Express.handle rt (program_app prog) [] req).

(** Serving a sequence of requests, one after the other. *)
Fixpoint serve_all (rt : Runtime) (prog : Program) (reqs : list Request)
    : Program * list Response :=
  match reqs with
  | [] => (prog, [])
  | req :: rest =>
      let '(prog1, resp) := serve rt prog req in
      let '(prog2, resps) := serve_all rt prog1 rest in
      (prog2, resp :: resps)
  end.

(** The service as a function from request to response. *)
Definition app (rt : Runtime) (req : Request) : Response :=
  Express.handle rt (stack rt) [] req.

(** The two fixed payloads. *)
Definition hello_text : string := "Hello, World from the Dockerize App!".

Definition products_text : string :=
  Text.q "{'products':[{'id':1,'name':'Product A','price':100},{'id':2,'name':'Product B','price':150},{'id':3,'name':'Product C','price':200}]}".

(** ** Node: the listener and the wire *)

Module Node.

(** [validatePort] and the choice of port for a number that passed
    [toNumber]: the integers from 0 to 65535, 0 meaning any port. *)
Definition port_target (n : Z) : ListenTarget :=
  if n =? 0 then AnyTcpPort
  else if (0 <? n) && (n <=? 65535) then TcpPort n
  else BadPort.

(** A string no numeric literal starts like: its first character is a
    printable ASCII character other than a digit, a sign, a dot and [I]
    (white space is trimmed by [Number], and a literal starts with a digit,
    a sign, a dot or [Infinity]).  [Number] of such a string is [NaN]. *)
Definition starts_like_a_name (s : string) : bool :=
  match s with
  | EmptyString => false
  | String c _ =>
      let n := nat_of_ascii c in
      ((33 <=? n) && (n <=? 126))%nat
      && negb (Text.is_digit c)
      && negb (Ascii.eqb c "+" || Ascii.eqb c "-" || Ascii.eqb c "." || Ascii.eqb c "I")
  end.

(** [server.listen(port, callback)]: [normalizeArgs] takes a string whose
    [Number] is not [>= 0] for a pipe name and anything else for a port,
    which [validatePort] then checks. *)
Definition listen_target (rt : Runtime) (port : JS.value) : ListenTarget :=
  match port with
  | JS.Undefined => AnyTcpPort
  | JS.Num n => port_target n
  | JS.Str s =>
      match Text.parse_decimal s with
      | Some n => port_target n
      | None => if starts_like_a_name s then PipePath s else listen_string rt s
      end
  end.

(** A response as it goes out: Node adds a Date header to every response
    head ([sendDate]), spelling the second at which it is written; the
    header is kept by that second. *)
Record Wire : Type := {
  wire_date : Z;
  wire_response : Response
}.

Definition transmit (now : Z) (resp : Response) : Wire :=
  {| wire_date := now; wire_response := resp |}.

End Node.

(** What [app.listen(PORT, ...)] sets out to bind under environment [env]. *)
Definition listen_target (rt : Runtime) (env : gmap string string) : ListenTarget :=
  Node.listen_target rt (listen_port (listen env)).

(** Serving one request when the clock shows second [now]. *)
Definition serve_at (rt : Runtime) (prog : Program) (now : Z) (req : Request)
    : Program * Node.Wire :=
  let '(prog1, resp) := serve rt prog req in (prog1, Node.transmit now resp).

(** ** Views of requests and responses used in statements *)

(** The same request line, headers and body sent with another method. *)
Definition with_method (m : Method) (req : Request) : Request :=
  {| req_method := m; req_path := req_path req; req_query := req_query req;
     req_headers := req_headers req; req_body := req_body req |}.

(** A response as the client of a HEAD request receives it: the status
    and the headers, no body. *)
Definition without_body (resp : Response) : Response :=
  {| status := status resp; content_type := content_type resp;
     allow := allow resp; etag := etag resp; body := "" |}.

(** ** Sample inputs *)

Module Sample.

(** A runtime to evaluate with: every text parses, no charset parameter,
    no content decoder, UTF-8 as the only charset, one fixed tag, an empty
    error page. *)
Definition runtime : Runtime :=
  {| JSON_parse_ok := fun _ => true;
     charset_of := fun _ => None;
     inflate := fun _ _ => UnsupportedEncoding;
     etag_of := fun _ => "W/tag";
     error_page := fun _ _ => "";
     parameters_ok := fun _ => true;
     encodingExists := fun _ => false;
     iconv_decode := fun _ bytes => bytes;
     listen_string := fun _ => BadPort |}.

(** A runtime whose [JSON.parse] rejects every text. *)
Definition strict_runtime : Runtime :=
  {| JSON_parse_ok := fun _ => false;
     charset_of := fun _ => None;
     inflate := fun _ _ => UnsupportedEncoding;
     etag_of := fun _ => "W/tag";
     error_page := fun _ _ => "";
     parameters_ok := fun _ => true;
     encodingExists := fun _ => false;
     iconv_decode := fun _ bytes => bytes;
     listen_string := fun _ => BadPort |}.

Definition request (m : Method) (p : string) : Request :=
  {| req_method := m; req_path := p; req_query := "";
     req_headers := ∅; req_body := "" |}.

(** [GET /?lang=en] with an Accept header and no body. *)
Definition get_root : Request :=
  {| req_method := GET; req_path := "/"; req_query := "lang=en";
     req_headers := {[ "accept" := "*/*" ]}; req_body := "" |}.

Definition get_products : Request := request GET "/products".

(** [GET /] with [Content-Type: application/json] and the body [{oops]. *)
Definition get_root_bad_json : Request :=
  {| req_method := GET; req_path := "/"; req_query := "";
     req_headers := {[ "content-type" := "application/json"; "content-length" := "5" ]};
     req_body := "{oops" |}.

(** The same request, with a body that does not even open an object. *)
Definition get_root_not_json : Request :=
  {| req_method := GET; req_path := "/"; req_query := "";
     req_headers := {[ "content-type" := "application/json"; "content-length" := "4" ]};
     req_body := "oops" |}.

Definition get_products_not_json : Request :=
  {| req_method := GET; req_path := "/products"; req_query := "";
     req_headers := {[ "content-type" := "application/json"; "content-length" := "4" ]};
     req_body := "oops" |}.

(** [GET /] revalidating a cached copy with [If-None-Match: *]. *)
Definition get_root_conditional : Request :=
  {| req_method := GET; req_path := "/"; req_query := "";
     req_headers := {[ "if-none-match" := "*" ]}; req_body := "" |}.

Definition get_products_conditional : Request :=
  {| req_method := GET; req_path := "/products"; req_query := "";
     req_headers := {[ "if-none-match" := "*" ]}; req_body := "" |}.

(** [POST /unknown] with a JSON body that does not parse. *)
Definition post_unknown_not_json : Request :=
  {| req_method := POST; req_path := "/unknown"; req_query := "";
     req_headers := {[ "content-type" := "application/json"; "content-length" := "4" ]};
     req_body := "oops" |}.

(** [GET /] with the body [{oops] sent as [text/plain]. *)
Definition get_root_text_plain : Request :=
  {| req_method := GET; req_path := "/"; req_query := "";
     req_headers := {[ "content-type" := "text/plain"; "content-length" := "5" ]};
     req_body := "{oops" |}.

(** [GET /products] announcing a JSON body of length zero. *)
Definition get_products_empty_json : Request :=
  {| req_method := GET; req_path := "/products"; req_query := "";
     req_headers := {[ "content-type" := "application/json"; "content-length" := "0" ]};
     req_body := "" |}.

(** [GET /] with the JSON number [123] as its body. *)
Definition get_root_primitive : Request :=
  {| req_method := GET; req_path := "/"; req_query := "";
     req_headers := {[ "content-type" := "application/json"; "content-length" := "3" ]};
     req_body := "123" |}.

(** [GET /] with a JSON-typed body of 102401 bytes. *)
Definition get_root_oversized : Request :=
  {| req_method := GET; req_path := "/"; req_query := "";
     req_headers := {[ "content-type" := "application/json"; "content-length" := "102401" ]};
     req_body := N.iter 102401 (String "x") "" |}.

(** [GET /] revalidating with a list of entity tags, the second being the
    tag [runtime] computes. *)
Definition get_root_revalidate : Request :=
  {| req_method := GET; req_path := "/"; req_query := "";
     req_headers := {[ "if-none-match" := "abc, W/tag" ]}; req_body := "" |}.

(** [GET /products] with [If-None-Match: *] and [Cache-Control: no-cache]. *)
Definition get_products_no_cache : Request :=
  {| req_method := GET; req_path := "/products"; req_query := "";
     req_headers := {[ "if-none-match" := "*"; "cache-control" := "max-age=0, no-cache" ]};
     req_body := "" |}.

(** A runtime that reads the charset [utf-99] off every parameter list
    and has no decoder for it. *)
Definition utf99_runtime : Runtime :=
  {| JSON_parse_ok := fun _ => true;
     charset_of := fun _ => Some "utf-99";
     inflate := fun _ _ => UnsupportedEncoding;
     etag_of := fun _ => "W/tag";
     error_page := fun _ _ => "";
     parameters_ok := fun _ => true;
     encodingExists := fun _ => false;
     iconv_decode := fun _ bytes => bytes;
     listen_string := fun _ => BadPort |}.

(** [GET /] with the body [{}] sent as [application/json; charset=utf-99]. *)
Definition get_root_utf99 : Request :=
  {| req_method := GET; req_path := "/"; req_query := "";
     req_headers := {[ "content-type" := "application/json; charset=utf-99";
                       "content-length" := "2" ]};
     req_body := "{}" |}.

End Sample.


(** ** The model evaluated on sample inputs *)

Example PORT_unset : PORT ∅ = JS.Num 5000.
Proof. reflexivity. Qed.

Example PORT_8080 : PORT {[ "PORT" := "8080" ]} = JS.Str "8080".
Proof. vm_compute. reflexivity. Qed.

Example listen_log_default :
  listening_log (listen ∅) = "Server is running on http://localhost:5000".
Proof. vm_compute. reflexivity. Qed.

Example stringify_nested :
  JSON.stringify (JObj [("a", JArr [JNum 1; JStr "x"]); ("b", JObj [])])
  = Text.q "{'a':[1,'x'],'b':{}}".
Proof. vm_compute. reflexivity. Qed.

Example app_get_root :
  app Sample.runtime Sample.get_root
  = {| status := 200; content_type := Some "text/html; charset=utf-8";
       allow := None; etag := Some "W/tag"; body := hello_text |}.
Proof. vm_compute. reflexivity. Qed.

Example app_get_products :
  body (app Sample.runtime Sample.get_products) = products_text.
Proof. vm_compute. reflexivity. Qed.

Example app_get_products_upper :
  status (app Sample.runtime (Sample.request GET "/PRODUCTS/")) = 200.
Proof. vm_compute. reflexivity. Qed.

Example app_head_root :
  app Sample.runtime (Sample.request HEAD "/")
  = {| status := 200; content_type := Some "text/html; charset=utf-8";
       allow := None; etag := Some "W/tag"; body := "" |}.
Proof. vm_compute. reflexivity. Qed.

Example app_options_root :
  status (app Sample.runtime (Sample.request OPTIONS "/")) = 200.
Proof. vm_compute. reflexivity. Qed.

Example app_options_unknown :
  status (app Sample.runtime (Sample.request OPTIONS "/unknown")) = 404.
Proof. vm_compute. reflexivity. Qed.

Example matchPath_samples :
  Express.matchPath "/" "/" = true
  /\ Express.matchPath "/" "/products" = false
  /\ Express.matchPath "/products" "/Products/" = true
  /\ Express.matchPath "/products" "/products/1" = false.
Proof. vm_compute. repeat split; reflexivity. Qed.

Example media_type_samples :
  BodyParser.media_type "Application/JSON ; charset=utf-8" = "application/json"
  /\ BodyParser.media_type "text/plain" = "text/plain".
Proof. vm_compute. split; reflexivity. Qed.

Example parseTokenList_sample :
  Express.parseTokenList "W/tag ,  x" = ["W/tag"; "x"].
Proof. vm_compute. reflexivity. Qed.

Example app_post_root : status (app Sample.runtime (Sample.request POST "/")) = 404.
Proof. vm_compute. reflexivity. Qed.

Example app_get_unknown : status (app Sample.runtime (Sample.request GET "/unknown")) = 404.
Proof. vm_compute. reflexivity. Qed.

Example app_bad_json : status (app Sample.runtime Sample.get_root_not_json) = 400.
Proof. vm_compute. reflexivity. Qed.

Example app_conditional : status (app Sample.runtime Sample.get_root_conditional) = 304.
Proof. vm_compute. reflexivity. Qed.

Example app_unsupported_charset :
  status (app Sample.utf99_runtime Sample.get_root_utf99) = 415.
Proof. vm_compute. reflexivity. Qed.

Example app_empty_json_body :
  status (app Sample.strict_runtime Sample.get_products_empty_json) = 200.
Proof. vm_compute. reflexivity. Qed.

Example parse_decimal_samples :
  Text.parse_decimal "08080" = Some 8080
  /\ Text.parse_decimal "" = None
  /\ Text.parse_decimal "80a" = None.
Proof. vm_compute. repeat split; reflexivity. Qed.

Example listen_target_samples :
  listen_target Sample.runtime ∅ = TcpPort 5000
  /\ listen_target Sample.runtime {[ "PORT" := "3000" ]} = TcpPort 3000
  /\ listen_target Sample.runtime {[ "PORT" := "65536" ]} = BadPort
  /\ listen_target Sample.runtime {[ "PORT" := "/run/app.sock" ]} = PipePath "/run/app.sock".
Proof. vm_compute. repeat split; reflexivity. Qed.

(** ** Lemmas on the framework functions *)

Section Framework.

Variable rt : Runtime.

Lemma fresh_needs_none_match (req : Request) (tag : option string) :
  header_truthy req "if-none-match" = false -> Express.fresh req tag = false.
Proof.
  intros Hnm. unfold Express.fresh. rewrite Hnm.
  destruct (header_truthy req "if-modified-since"); cbn.
  - destruct (header_truthy req "cache-control" && _); reflexivity.
  - reflexivity.
Qed.

Lemma req_fresh_needs_none_match (req : Request) (tag : option string) :
  header_truthy req "if-none-match" = false -> Express.req_fresh req tag = false.
Proof.
  intros Hnm. unfold Express.req_fresh.
  destruct (req_method req); auto using fresh_needs_none_match.
Qed.

Lemma send_unconditional (req : Request) (allowed : option string) (ctype chunk : string) :
  header_truthy req "if-none-match" = false ->
  Express.send rt req allowed ctype chunk
  = {| status := 200;
       content_type := Some (ctype +:+ "; charset=utf-8");
       allow := allowed;
       etag := if String.eqb (etag_of rt chunk) "" then None else Some (etag_of rt chunk);
       body := if bool_decide (req_method req = HEAD) then "" else chunk |}.
Proof.
  intros Hnm. unfold Express.send.
  rewrite (req_fresh_needs_none_match _ _ Hnm). reflexivity.
Qed.

Lemma send_status (req : Request) (allowed : option string) (ctype chunk : string) :
  status (Express.send rt req allowed ctype chunk) = 200
  \/ status (Express.send rt req allowed ctype chunk) = 304.
Proof.
  unfold Express.send. destruct (Express.req_fresh _ _); cbn; auto.
Qed.

Lemma respond_status (req : Request) (call : Express.ResCall) :
  status (Express.respond rt req call) = 200 \/ status (Express.respond rt req call) = 304.
Proof. destruct call; apply send_status. Qed.

(** The body parser only fails with a client error. *)
Lemma parse_cases (text : string) :
  BodyParser.parse rt text = Continue \/ BodyParser.parse rt text = Error 400.
Proof.
  unfold BodyParser.parse.
  destruct (String.eqb text ""); auto.
  destruct (Text.firstchar text); auto.
  destruct (_ || _); auto.
  destruct (JSON_parse_ok rt text); auto.
Qed.

Lemma jsonParser_cases (req : Request) :
  BodyParser.jsonParser rt req = Continue
  \/ BodyParser.jsonParser rt req = Error 400
  \/ BodyParser.jsonParser rt req = Error 413
  \/ BodyParser.jsonParser rt req = Error 415.
Proof.
  unfold BodyParser.jsonParser.
  destruct (negb (BodyParser.hasBody req)); auto.
  destruct (negb (BodyParser.shouldParse rt req)); auto.
  destruct (negb (String.prefix _ _)); auto.
  unfold BodyParser.read.
  destruct (BodyParser.contentstream rt req) as [bytes | |]; auto;
    destruct (match BodyParser.stream_length req with
              | Some n => BodyParser.limit <? n
              | None => false
              end); auto;
    destruct (negb (BodyParser.decoder_exists rt _)); auto.
  destruct (_ <? _); auto.
  destruct (match BodyParser.stream_length req with
            | Some n => negb (n =? Z.of_nat (String.length bytes))
            | None => false
            end); auto.
  destruct (parse_cases (BodyParser.decode rt (BodyParser.getCharset rt req) bytes))
    as [-> | ->]; auto.
Qed.

(** The application is the body parser followed by the two routes. *)
Lemma app_eq (req : Request) :
  app rt req
  = match BodyParser.jsonParser rt req with
    | Continue =>
        Express.handle rt
          [Express.Get "/" rootHandler; Express.Get "/products" productsHandler] [] req
    | Error e => Express.finalhandler rt req (Express.getErrorStatusCode e)
    end.
Proof. reflexivity. Qed.

Lemma app_rejected (req : Request) (e : Z) :
  BodyParser.jsonParser rt req = Error e ->
  app rt req = Express.finalhandler rt req (Express.getErrorStatusCode e).
Proof. intros H. rewrite app_eq, H. reflexivity. Qed.

End Framework.

Section Routes.

Variable rt : Runtime.

Lemma handle_get_root (req : Request) :
  req_method req = GET -> req_path req = "/" ->
  Express.handle rt [Express.Get "/" rootHandler; Express.Get "/products" productsHandler] [] req
  = Express.respond rt req (rootHandler req).
Proof.
  intros Hm Hp. cbn [Express.handle]. rewrite Hp, Hm. reflexivity.
Qed.

Lemma handle_get_products (req : Request) :
  req_method req = GET -> req_path req = "/products" ->
  Express.handle rt [Express.Get "/" rootHandler; Express.Get "/products" productsHandler] [] req
  = Express.respond rt req (productsHandler req).
Proof.
  intros Hm Hp. cbn [Express.handle]. rewrite Hp, Hm. reflexivity.
Qed.

(** A walk over routes alone ends in a handler's response, in the
    automatic OPTIONS answer, or in finalhandler's 404. *)
Lemma handle_gets_status (req : Request) (stack : list Express.Layer) :
  Forall (fun layer => exists route handler, layer = Express.Get route handler) stack ->
  forall options,
    status (Express.handle rt stack options req) = 200
    \/ status (Express.handle rt stack options req) = 304
    \/ status (Express.handle rt stack options req) = 404.
Proof.
  induction 1 as [| layer rest (route & handler & ->) _ IH]; intros options;
    cbn [Express.handle].
  - destruct options as [| o os]; destruct (req_method req);
      try (right; right; reflexivity).
    unfold Express.sendOptionsResponse.
    destruct (send_status rt req (Some (Text.join "," (o :: os))) "text/html"
                (Text.join "," (o :: os))) as [-> | ->]; auto.
  - destruct (Express.matchPath route (req_path req)); [| apply IH].
    destruct (Express.handles_method (req_method req)); [| apply IH].
    destruct (respond_status rt req (handler req)) as [-> | ->]; auto.
Qed.

Lemma handle_routes_status (req : Request) :
  let resp := Express.handle rt
                [Express.Get "/" rootHandler; Express.Get "/products" productsHandler] [] req in
  status resp = 200 \/ status resp = 304 \/ status resp = 404.
Proof.
  apply handle_gets_status. repeat constructor; eauto.
Qed.

(** No route takes a request whose path matches neither pattern, or whose
    method is none of GET, HEAD and OPTIONS. *)
Lemma handle_routes_unmatched (req : Request) :
  (Express.matchPath "/" (req_path req) = false
   /\ Express.matchPath "/products" (req_path req) = false)
  \/ (req_method req <> GET /\ req_method req <> HEAD /\ req_method req <> OPTIONS) ->
  Express.handle rt [Express.Get "/" rootHandler; Express.Get "/products" productsHandler] [] req
  = Express.finalhandler rt req 404.
Proof.
  intros [[H1 H2] | (Hg & Hh & Ho)]; cbn [Express.handle].
  - rewrite H1, H2. destruct (req_method req); reflexivity.
  - destruct (Express.matchPath "/" (req_path req));
      destruct (Express.matchPath "/products" (req_path req));
      destruct (req_method req); try congruence; reflexivity.
Qed.

(** A body the parser reads and cannot parse is answered 400. *)
Lemma parse_malformed (text : string) :
  text <> "" -> JSON_parse_ok rt text = false -> BodyParser.parse rt text = Error 400.
Proof.
  intros Hne Hbad. unfold BodyParser.parse.
  destruct (String.eqb_spec text ""); [contradiction |].
  destruct (Text.firstchar text); [| reflexivity].
  destruct (_ || _); [| reflexivity].
  rewrite Hbad. reflexivity.
Qed.

Lemma contentstream_identity (req : Request) :
  header_truthy req "content-encoding" = false ->
  BodyParser.contentstream rt req = Plain (req_body req).
Proof. intros H. unfold BodyParser.contentstream. rewrite H. reflexivity. Qed.

Lemma serve_all_map (prog : Program) (reqs : list Request) :
  serve_all rt prog reqs = (prog, List.map (fun req => snd (serve rt prog req)) reqs).
Proof.
  induction reqs as [| req rest IH]; [reflexivity |].
  cbn [serve_all]. unfold serve at 1. rewrite IH. reflexivity.
Qed.

End Routes.

(** Requests the body parser lets through without reading anything. *)
Lemma jsonParser_no_body (rt : Runtime) (req : Request) :
  header req "transfer-encoding" = None ->
  header req "content-length" = None ->
  BodyParser.jsonParser rt req = Continue.
Proof.
  intros Hte Hcl. unfold BodyParser.jsonParser, BodyParser.hasBody.
  rewrite Hte, Hcl. reflexivity.
Qed.

Lemma jsonParser_other_type (rt : Runtime) (req : Request) :
  BodyParser.shouldParse rt req = false -> BodyParser.jsonParser rt req = Continue.
Proof.
  intros Htype. unfold BodyParser.jsonParser. rewrite Htype.
  destruct (negb (BodyParser.hasBody req)); reflexivity.
Qed.

Section RouteMatching.

(** The two patterns of [index.ts], spelled out. *)
Lemma matchPath_root (p : string) :
  Express.matchPath "/" p = String.eqb (Text.lower p) "" || String.eqb (Text.lower p) "/".
Proof. reflexivity. Qed.

Lemma matchPath_products (p : string) :
  Express.matchPath "/products" p
  = String.eqb (Text.lower p) "/products" || String.eqb (Text.lower p) "/products/".
Proof. reflexivity. Qed.

(** No path is taken by both routes. *)
Lemma routes_disjoint (p : string) :
  Express.matchPath "/products" p = true -> Express.matchPath "/" p = false.
Proof.
  rewrite matchPath_root, matchPath_products. intros H.
  apply orb_true_iff in H as [H | H]; apply String.eqb_eq in H; rewrite H; reflexivity.
Qed.

Variable rt : Runtime.

(** Where a GET or HEAD request goes once the body parser let it through. *)
Lemma handle_root_route (req : Request) :
  Express.handles_method (req_method req) = true ->
  Express.matchPath "/" (req_path req) = true ->
  Express.handle rt [Express.Get "/" rootHandler; Express.Get "/products" productsHandler] [] req
  = Express.respond rt req (rootHandler req).
Proof. intros Hm Hp. cbn [Express.handle]. rewrite Hp, Hm. reflexivity. Qed.

Lemma handle_products_route (req : Request) :
  Express.handles_method (req_method req) = true ->
  Express.matchPath "/products" (req_path req) = true ->
  Express.handle rt [Express.Get "/" rootHandler; Express.Get "/products" productsHandler] [] req
  = Express.respond rt req (productsHandler req).
Proof.
  intros Hm Hp. cbn [Express.handle]. rewrite (routes_disjoint _ Hp), Hp, Hm. reflexivity.
Qed.

End RouteMatching.

Section MethodViews.

Variable rt : Runtime.

(** The body parser reads headers and body, never the method. *)
Lemma jsonParser_with_method (m : Method) (req : Request) :
  BodyParser.jsonParser rt (with_method m req) = BodyParser.jsonParser rt req.
Proof. reflexivity. Qed.

Lemma fresh_with_method (m : Method) (req : Request) (tag : option string) :
  Express.fresh (with_method m req) tag = Express.fresh req tag.
Proof. reflexivity. Qed.

(** [res.send] under HEAD: what GET gets, minus the body. *)
Lemma send_head (req : Request) (allowed : option string) (ctype chunk : string) :
  req_method req = GET ->
  Express.send rt (with_method HEAD req) allowed ctype chunk
  = without_body (Express.send rt req allowed ctype chunk).
Proof.
  intros Hm. unfold Express.send, Express.req_fresh. rewrite Hm.
  cbn [with_method req_method]. rewrite fresh_with_method.
  destruct (Express.fresh req _); reflexivity.
Qed.

Lemma respond_head (req : Request) (call : Express.ResCall) :
  req_method req = GET ->
  Express.respond rt (with_method HEAD req) call
  = without_body (Express.respond rt req call).
Proof. intros Hm. destruct call; apply send_head; exact Hm. Qed.

End MethodViews.

Section Revalidation.

Variable rt : Runtime.

(** What [res.send] writes when the request is fresh. *)
Lemma send_fresh (req : Request) (allowed : option string) (ctype chunk : string) :
  Express.req_fresh req
    (if String.eqb (etag_of rt chunk) "" then None else Some (etag_of rt chunk)) = true ->
  Express.send rt req allowed ctype chunk
  = {| status := 304; content_type := None; allow := allowed;
       etag := if String.eqb (etag_of rt chunk) "" then None else Some (etag_of rt chunk);
       body := "" |}.
Proof. intros H. unfold Express.send. rewrite H. reflexivity. Qed.

(** A listed tag that compares equal, weakly, to the payload's makes a GET
    request without If-Modified-Since and Cache-Control fresh. *)
Lemma fresh_listed_tag (req : Request) (inm tag : string) :
  req_method req = GET ->
  header req "if-none-match" = Some inm ->
  inm <> "" ->
  header_truthy req "if-modified-since" = false ->
  header_truthy req "cache-control" = false ->
  (exists candidate, In candidate (Express.parseTokenList inm)
                     /\ Express.etag_matches tag candidate = true) ->
  Express.req_fresh req (Some tag) = true.
Proof.
  intros Hm Hinm Hne Hims Hcc (candidate & Hin & Hmatch).
  unfold Express.req_fresh, Express.fresh, header_truthy. rewrite Hm, Hinm.
  fold (header_truthy req "if-modified-since"). fold (header_truthy req "cache-control").
  rewrite Hims, Hcc. destruct (String.eqb_spec inm ""); [contradiction |].
  cbn [negb andb default]. change (Datatypes.id inm) with inm.
  assert (Hex : existsb (Express.etag_matches tag) (Express.parseTokenList inm) = true)
    by (apply existsb_exists; eauto).
  rewrite Hex. cbn [negb]. rewrite andb_false_r. reflexivity.
Qed.

(** With [Cache-Control: no-cache] on the request nothing is fresh. *)
Lemma fresh_no_cache (req : Request) (cc : string) (tag : option string) :
  header req "cache-control" = Some cc ->
  Express.no_cache cc = true ->
  Express.req_fresh req tag = false.
Proof.
  intros Hcc Hno.
  assert (Hne : String.eqb cc "" = false) by (destruct cc; [discriminate Hno | reflexivity]).
  unfold Express.req_fresh. assert (Express.fresh req tag = false) as ->.
  { unfold Express.fresh. destruct (negb _ && negb _); [reflexivity |].
    unfold header_truthy at 1. rewrite Hcc, Hne. cbn [negb default andb].
    change (Datatypes.id cc) with cc. rewrite Hno. reflexivity. }
  destruct (req_method req); reflexivity.
Qed.

(** A 304 is only written for a GET or HEAD that carries If-None-Match. *)
Lemma send_304_inv (req : Request) (allowed : option string) (ctype chunk : string) :
  status (Express.send rt req allowed ctype chunk) = 304 ->
  (req_method req = GET \/ req_method req = HEAD)
  /\ header_truthy req "if-none-match" = true
  /\ content_type (Express.send rt req allowed ctype chunk) = None
  /\ body (Express.send rt req allowed ctype chunk) = "".
Proof.
  unfold Express.send.
  destruct (Express.req_fresh req _) eqn:Hfresh; cbn; [intros _ | discriminate].
  split.
  - unfold Express.req_fresh in Hfresh. destruct (req_method req); auto; discriminate.
  - destruct (header_truthy req "if-none-match") eqn:Hnm; [auto |].
    rewrite (req_fresh_needs_none_match req _ Hnm) in Hfresh. discriminate.
Qed.

Lemma handle_gets_304_inv (req : Request) (stack : list Express.Layer) :
  Forall (fun layer => exists route handler, layer = Express.Get route handler) stack ->
  forall options,
    status (Express.handle rt stack options req) = 304 ->
    (req_method req = GET \/ req_method req = HEAD)
    /\ header_truthy req "if-none-match" = true
    /\ content_type (Express.handle rt stack options req) = None
    /\ body (Express.handle rt stack options req) = "".
Proof.
  induction 1 as [| layer rest (route & handler & ->) _ IH]; intros options;
    cbn [Express.handle].
  - destruct options as [| o os]; destruct (req_method req) eqn:Hm;
      try (cbn; discriminate).
    unfold Express.sendOptionsResponse. intros H304.
    apply send_304_inv in H304 as ([H | H] & _); congruence.
  - destruct (Express.matchPath route (req_path req)); [| apply IH].
    destruct (Express.handles_method (req_method req)); [| apply IH].
    destruct (handler req); apply send_304_inv.
Qed.

End Revalidation.

(** [res.send] for a method other than GET and HEAD never revalidates. *)
Lemma send_options (rt : Runtime) (req : Request) (allowed : option string)
    (ctype chunk : string) :
  req_method req = OPTIONS ->
  status (Express.send rt req allowed ctype chunk) = 200
  /\ allow (Express.send rt req allowed ctype chunk) = allowed.
Proof.
  intros Hm. unfold Express.send, Express.req_fresh. rewrite Hm. split; reflexivity.
Qed.

Section Reading.

Variable rt : Runtime.

(** [read] on a body sent without content coding. *)
Lemma read_identity (req : Request) (charset : string) :
  header_truthy req "content-encoding" = false ->
  BodyParser.read rt req charset
  = if match BodyParser.stream_length req with
       | Some n => BodyParser.limit <? n
       | None => false
       end then Error 413
    else if negb (BodyParser.decoder_exists rt charset) then Error 415
    else if BodyParser.limit <? Z.of_nat (String.length (req_body req)) then Error 413
    else if match BodyParser.stream_length req with
            | Some n => negb (n =? Z.of_nat (String.length (req_body req)))
            | None => false
            end then Error 400
    else BodyParser.parse rt (BodyParser.decode rt charset (req_body req)).
Proof.
  intros H. unfold BodyParser.read. rewrite (contentstream_identity rt req H). reflexivity.
Qed.

(** The parser's verdict on a request it reads. *)
Lemma jsonParser_reads (req : Request) :
  BodyParser.hasBody req = true ->
  BodyParser.shouldParse rt req = true ->
  BodyParser.jsonParser rt req
  = if negb (String.prefix "utf-" (BodyParser.getCharset rt req)) then Error 415
    else BodyParser.read rt req (BodyParser.getCharset rt req).
Proof.
  intros Hbody Htype. unfold BodyParser.jsonParser. rewrite Hbody, Htype. reflexivity.
Qed.

(** A decimal numeral is not empty, and a string that starts like a name
    is neither empty nor a numeral. *)
Lemma parse_decimal_nonempty (s : string) (n : Z) :
  Text.parse_decimal s = Some n -> s <> "".
Proof. intros H ->. discriminate H. Qed.

Lemma name_is_no_numeral (s : string) :
  Node.starts_like_a_name s = true -> s <> "" /\ Text.parse_decimal s = None.
Proof.
  destruct s as [| c r]; [discriminate |]. intros H. split; [discriminate |].
  unfold Node.starts_like_a_name in H.
  apply andb_true_iff in H as [H _]. apply andb_true_iff in H as [_ H].
  apply negb_true_iff in H. cbn [Text.parse_decimal Text.digits_value]. rewrite H. reflexivity.
Qed.

(** What [PORT] resolves to for a non-empty value. *)
Lemma PORT_of_nonempty (env : gmap string string) (s : string) :
  env !! "PORT" = Some s -> s <> "" -> PORT env = JS.Str s.
Proof.
  intros Hs Hne. unfold PORT, JS.or, JS.env_get. rewrite Hs. cbn.
  destruct (String.eqb_spec s ""); [contradiction | reflexivity].
Qed.

Lemma PORT_of_falsy (env : gmap string string) :
  JS.truthy (JS.env_get env "PORT") = false -> PORT env = JS.Num 5000.
Proof. intros H. unfold PORT, JS.or. rewrite H. reflexivity. Qed.

(** The automatic OPTIONS answer on a path a route has. *)
Lemma handle_options_matched (req : Request) :
  req_method req = OPTIONS ->
  Express.matchPath "/" (req_path req) = true
  \/ Express.matchPath "/products" (req_path req) = true ->
  let resp := Express.handle rt
                [Express.Get "/" rootHandler; Express.Get "/products" productsHandler] [] req in
  status resp = 200 /\ is_Some (allow resp).
Proof.
  intros Hm Hmatch. cbn [Express.handle]. rewrite Hm. cbn [Express.handles_method].
  assert (Hsend : forall options,
    status (Express.sendOptionsResponse rt req options) = 200
    /\ is_Some (allow (Express.sendOptionsResponse rt req options))).
  { intros options. unfold Express.sendOptionsResponse.
    destruct (send_options rt req (Some (Text.join "," options)) "text/html"
                (Text.join "," options) Hm) as [-> ->]. split; [reflexivity | eauto]. }
  destruct (Express.matchPath "/products" (req_path req)) eqn:Hproducts.
  - rewrite (routes_disjoint _ Hproducts). apply Hsend.
  - destruct Hmatch as [-> | Hfalse]; [apply Hsend | discriminate].
Qed.

(** A GET or HEAD request on a path a route has, without If-None-Match. *)
Lemma handle_matched_unconditional (req : Request) :
  Express.handles_method (req_method req) = true ->
  header_truthy req "if-none-match" = false ->
  Express.matchPath "/" (req_path req) = true
  \/ Express.matchPath "/products" (req_path req) = true ->
  let resp := Express.handle rt
                [Express.Get "/" rootHandler; Express.Get "/products" productsHandler] [] req in
  status resp = 200
  /\ (body resp = if bool_decide (req_method req = HEAD) then ""
                  else if Express.matchPath "/products" (req_path req)
                       then products_text else hello_text).
Proof.
  intros Hm Hnm Hmatch. cbv zeta.
  destruct (Express.matchPath "/products" (req_path req)) eqn:Hproducts.
  - rewrite (handle_products_route rt req Hm Hproducts).
    unfold productsHandler, Express.respond. rewrite (send_unconditional rt req _ _ _ Hnm).
    split; [reflexivity |]. cbn [body].
    destruct (bool_decide (req_method req = HEAD)); [reflexivity | vm_compute; reflexivity].
  - destruct Hmatch as [Hroot | Hfalse]; [| discriminate].
    rewrite (handle_root_route rt req Hm Hroot).
    unfold rootHandler, Express.respond. rewrite (send_unconditional rt req _ _ _ Hnm).
    split; reflexivity.
Qed.

(** The response to a GET on [/products] that passes, without If-None-Match. *)
Lemma products_response (req : Request) :
  req_method req = GET ->
  req_path req = "/products" ->
  BodyParser.jsonParser rt req = Continue ->
  header_truthy req "if-none-match" = false ->
  app rt req
  = {| status := 200;
       content_type := Some "application/json; charset=utf-8";
       allow := None;
       etag := if String.eqb (etag_of rt products_text) "" then None
               else Some (etag_of rt products_text);
       body := products_text |}.
Proof.
  intros Hm Hp Hjson Hnm.
  rewrite app_eq, Hjson, (handle_get_products rt req Hm Hp).
  unfold productsHandler, Express.respond.
  replace (JSON.stringify (JObj [("products", JArr (List.map product_json products))]))
    with products_text by (vm_compute; reflexivity).
  rewrite (send_unconditional rt req _ _ _ Hnm), Hm. reflexivity.
Qed.

End Reading.

(** ** The claims *)

(** C1, as the code has it: every GET request to [/products] that the JSON
    body parser lets through and that carries no [If-None-Match] header is
    answered with status 200, [Content-Type: application/json;
    charset=utf-8] and a body that is exactly the serialisation of the three
    product records, in source order. *)
Theorem get_products_response (rt : Runtime) (req : Request) :
  req_method req = GET ->
  req_path req = "/products" ->
  BodyParser.jsonParser rt req = Continue ->
  header_truthy req "if-none-match" = false ->
  status (app rt req) = 200
  /\ content_type (app rt req) = Some "application/json; charset=utf-8"
  /\ body (app rt req) = products_text
  /\ products_text = JSON.stringify (JObj [("products", JArr (List.map product_json products))]).
Proof.
  intros Hm Hp Hjson Hnm.
  rewrite app_eq, Hjson, (handle_get_products rt req Hm Hp).
  unfold productsHandler, Express.respond.
  rewrite (send_unconditional rt req _ _ _ Hnm), Hm.
  repeat split; vm_compute; reflexivity.
Qed.

Lemma get_products_response_witness :
  status (app Sample.runtime Sample.get_products) = 200
  /\ content_type (app Sample.runtime Sample.get_products)
     = Some "application/json; charset=utf-8"
  /\ body (app Sample.runtime Sample.get_products) = products_text
  /\ products_text = JSON.stringify (JObj [("products", JArr (List.map product_json products))]).
Proof.
  apply (get_products_response Sample.runtime Sample.get_products);
    vm_compute; reflexivity.
Defined.

(** C1 as stated fails: a GET to [/products] whose JSON body does not parse
    is answered 400 by the body parser, and one that revalidates with
    [If-None-Match: *] is answered 304 with an empty body. *)
Lemma get_products_not_always_200 :
  (req_method Sample.get_products_not_json = GET
   /\ req_path Sample.get_products_not_json = "/products"
   /\ forall rt, status (app rt Sample.get_products_not_json) = 400)
  /\ (req_method Sample.get_products_conditional = GET
      /\ req_path Sample.get_products_conditional = "/products"
      /\ forall rt, status (app rt Sample.get_products_conditional) = 304
                    /\ body (app rt Sample.get_products_conditional) = "").
Proof.
  repeat split; intros; vm_compute; reflexivity.
Qed.

(** C2, as the code has it: every GET request to [/] that the JSON body
    parser lets through and that carries no [If-None-Match] header, whatever
    its query string, other headers and body, is answered with status 200
    and the body [Hello, World from the Dockerize App!]. *)
Theorem get_root_response (rt : Runtime) (req : Request) :
  req_method req = GET ->
  req_path req = "/" ->
  BodyParser.jsonParser rt req = Continue ->
  header_truthy req "if-none-match" = false ->
  status (app rt req) = 200
  /\ body (app rt req) = "Hello, World from the Dockerize App!".
Proof.
  intros Hm Hp Hjson Hnm.
  rewrite app_eq, Hjson, (handle_get_root rt req Hm Hp).
  unfold rootHandler, Express.respond.
  rewrite (send_unconditional rt req _ _ _ Hnm), Hm.
  split; reflexivity.
Qed.

Lemma get_root_response_witness :
  status (app Sample.runtime Sample.get_root) = 200
  /\ body (app Sample.runtime Sample.get_root) = "Hello, World from the Dockerize App!".
Proof.
  apply (get_root_response Sample.runtime Sample.get_root); vm_compute; reflexivity.
Defined.

(** C2 as stated fails on the body and on the headers: [GET /] with a JSON
    body that does not parse is answered 400, and [GET /] with
    [If-None-Match: *] is answered 304 with an empty body. *)
Lemma get_root_not_always_200 :
  (req_method Sample.get_root_not_json = GET
   /\ req_path Sample.get_root_not_json = "/"
   /\ forall rt, status (app rt Sample.get_root_not_json) = 400)
  /\ (req_method Sample.get_root_conditional = GET
      /\ req_path Sample.get_root_conditional = "/"
      /\ forall rt, status (app rt Sample.get_root_conditional) = 304
                    /\ body (app rt Sample.get_root_conditional) = "").
Proof.
  repeat split; intros; vm_compute; reflexivity.
Qed.

(** C3, as the code has it: a GET request to [/] that announces a body,
    has [Content-Type: application/json] with a well-formed parameter list,
    no content coding, and a body whose decoded text is non-empty and
    rejected by [JSON.parse] never reaches the route: the body parser fails
    it and the answer is a client error, never 200 and never a 5xx.  It is
    400 when the charset is a UTF one that has a decoder and neither the
    announced nor the received length is over the 100kb limit; otherwise it
    is 415 or 413. *)
Theorem malformed_json_is_rejected (rt : Runtime) (req : Request) :
  req_method req = GET ->
  req_path req = "/" ->
  BodyParser.hasBody req = true ->
  BodyParser.shouldParse rt req = true ->
  header_truthy req "content-encoding" = false ->
  BodyParser.decode rt (BodyParser.getCharset rt req) (req_body req) <> "" ->
  JSON_parse_ok rt (BodyParser.decode rt (BodyParser.getCharset rt req) (req_body req)) = false ->
  (status (app rt req) = 400 \/ status (app rt req) = 413 \/ status (app rt req) = 415)
  /\ (String.prefix "utf-" (BodyParser.getCharset rt req) = true ->
      BodyParser.decoder_exists rt (BodyParser.getCharset rt req) = true ->
      Z.of_nat (String.length (req_body req)) <= BodyParser.limit ->
      (forall n, BodyParser.stream_length req = Some n -> n <= BodyParser.limit) ->
      status (app rt req) = 400)
  /\ (String.prefix "utf-" (BodyParser.getCharset rt req) = false
      \/ BodyParser.decoder_exists rt (BodyParser.getCharset rt req) = false
      \/ BodyParser.limit < Z.of_nat (String.length (req_body req))
      \/ (exists n, BodyParser.stream_length req = Some n /\ BodyParser.limit < n) ->
      status (app rt req) = 413 \/ status (app rt req) = 415).
Proof.
  intros _ _ Hbody Htype Hidentity Hne Hbad.
  rewrite app_eq, (jsonParser_reads rt req Hbody Htype),
    (read_identity rt req _ Hidentity), (parse_malformed rt _ Hne Hbad).
  destruct (String.prefix "utf-" (BodyParser.getCharset rt req)); cbn [negb].
  2: { cbn. repeat split; auto; discriminate. }
  destruct (BodyParser.stream_length req) as [n |] eqn:Hlen.
  - destruct (Z.ltb_spec BodyParser.limit n).
    { cbn. repeat split; auto. intros _ _ _ Hn. specialize (Hn n eq_refl). lia. }
    destruct (BodyParser.decoder_exists rt (BodyParser.getCharset rt req)); cbn [negb].
    2: { cbn. repeat split; auto; discriminate. }
    destruct (Z.ltb_spec BodyParser.limit (Z.of_nat (String.length (req_body req)))).
    { cbn. repeat split; auto. intros _ _ Hle _. lia. }
    destruct (negb (n =? Z.of_nat (String.length (req_body req)))); cbn.
    all: repeat split; auto.
    all: intros [Hf | [Hf | [Hf | (m & Hm & Hf)]]]; try discriminate; try lia.
    all: injection Hm as <-; lia.
  - destruct (BodyParser.decoder_exists rt (BodyParser.getCharset rt req)); cbn [negb].
    2: { cbn. repeat split; auto; discriminate. }
    destruct (Z.ltb_spec BodyParser.limit (Z.of_nat (String.length (req_body req)))).
    { cbn. repeat split; auto. intros _ _ Hle _. lia. }
    cbn. repeat split; auto.
    intros [Hf | [Hf | [Hf | (m & Hm & Hf)]]]; try discriminate; lia.
Qed.

Lemma malformed_json_is_rejected_witness :
  status (app Sample.strict_runtime Sample.get_root_bad_json) = 400.
Proof.
  destruct (malformed_json_is_rejected Sample.strict_runtime Sample.get_root_bad_json
              ltac:(vm_compute; reflexivity) ltac:(vm_compute; reflexivity)
              ltac:(vm_compute; reflexivity) ltac:(vm_compute; reflexivity)
              ltac:(vm_compute; reflexivity) ltac:(vm_compute; discriminate)
              ltac:(vm_compute; reflexivity)) as (_ & H400 & _).
  apply H400; try (vm_compute; reflexivity).
  - vm_compute. discriminate.
  - intros n Hn. vm_compute in Hn. injection Hn as <-. vm_compute. discriminate.
Defined.

(** C3 as stated fails: [GET /] with [Content-Type: application/json] and
    the four-byte body [oops] is answered 400, under every runtime. *)
Lemma malformed_json_not_200 :
  req_method Sample.get_root_not_json = GET
  /\ req_path Sample.get_root_not_json = "/"
  /\ header Sample.get_root_not_json "content-type" = Some "application/json"
  /\ req_body Sample.get_root_not_json = "oops"
  /\ (forall rt, BodyParser.jsonParser rt Sample.get_root_not_json = Error 400)
  /\ (forall rt, status (app rt Sample.get_root_not_json) = 400).
Proof.
  repeat split; intros; vm_compute; reflexivity.
Qed.

(** C4, as the code has it: the resolved port is the value of [PORT] when
    the variable is set to a non-empty string, and 5000 when it is absent;
    that resolved value is the port argument of [app.listen].  [listen]
    asks for TCP port 5000 when [PORT] is absent or empty, and for TCP
    port n when [PORT] is a decimal numeral of a number n from 1 to 65535;
    a numeral of 0 asks for a port the system picks, a numeral above 65535
    makes [listen] throw, and a value that starts like a name or a path is
    taken for the path of a UNIX socket. *)
Theorem resolved_port (rt : Runtime) (env : gmap string string) :
  (forall s, env !! "PORT" = Some s -> s <> "" -> PORT env = JS.Str s)
  /\ (env !! "PORT" = None -> PORT env = JS.Num 5000)
  /\ listen_port (listen env) = PORT env
  /\ (JS.truthy (JS.env_get env "PORT") = false -> listen_target rt env = TcpPort 5000)
  /\ (forall s n, env !! "PORT" = Some s -> Text.parse_decimal s = Some n ->
        (1 <= n <= 65535 -> listen_target rt env = TcpPort n)
        /\ (n = 0 -> listen_target rt env = AnyTcpPort)
        /\ (65535 < n -> listen_target rt env = BadPort))
  /\ (forall s, env !! "PORT" = Some s -> Node.starts_like_a_name s = true ->
        listen_target rt env = PipePath s).
Proof.
  split; [exact (PORT_of_nonempty env) |].
  split; [intros H; apply PORT_of_falsy; unfold JS.env_get; rewrite H; reflexivity |].
  split; [reflexivity |].
  unfold listen_target. cbn [listen listen_port]. split; [| split].
  - intros H. rewrite (PORT_of_falsy env H). reflexivity.
  - intros s n Hs Hn.
    rewrite (PORT_of_nonempty env s Hs (parse_decimal_nonempty s n Hn)).
    cbn [Node.listen_target]. rewrite Hn. unfold Node.port_target.
    repeat split.
    + intros [Hlo Hhi]. destruct (Z.eqb_spec n 0); [lia |].
      destruct (Z.ltb_spec 0 n); [| lia]. destruct (Z.leb_spec n 65535); [reflexivity | lia].
    + intros ->. reflexivity.
    + intros Hbig. destruct (Z.eqb_spec n 0); [lia |].
      destruct (Z.ltb_spec 0 n); [| lia]. destruct (Z.leb_spec n 65535); [lia | reflexivity].
  - intros s Hs Hname. destruct (name_is_no_numeral s Hname) as [Hne Hnum].
    rewrite (PORT_of_nonempty env s Hs Hne). cbn [Node.listen_target].
    rewrite Hnum, Hname. reflexivity.
Qed.

Lemma resolved_port_witness :
  PORT {[ "PORT" := "8080" ]} = JS.Str "8080"
  /\ PORT ∅ = JS.Num 5000
  /\ listen_target Sample.runtime ∅ = TcpPort 5000
  /\ listen_target Sample.runtime {[ "PORT" := "8080" ]} = TcpPort 8080
  /\ listen_target Sample.runtime {[ "PORT" := "/tmp/app.sock" ]} = PipePath "/tmp/app.sock".
Proof.
  destruct (resolved_port Sample.runtime {[ "PORT" := "8080" ]})
    as (Hset & _ & _ & _ & Hnum & _).
  destruct (resolved_port Sample.runtime ∅) as (_ & Hunset & _ & Hfalsy & _).
  destruct (resolved_port Sample.runtime {[ "PORT" := "/tmp/app.sock" ]})
    as (_ & _ & _ & _ & _ & Hpipe).
  split; [apply Hset; [vm_compute; reflexivity | discriminate] |].
  split; [apply Hunset; vm_compute; reflexivity |].
  split; [apply Hfalsy; vm_compute; reflexivity |].
  split.
  - apply (Hnum "8080" 8080); [vm_compute; reflexivity .. | lia].
  - apply Hpipe; vm_compute; reflexivity.
Defined.

(** C4 as stated fails.  With [PORT] set to the empty string the variable
    is set, its value is the empty string, and the resolved port is 5000.
    And the resolved value is not always a TCP port the listener binds:
    [99999] makes [listen] throw, [0] asks for any port, and [not a port]
    names a UNIX socket. *)
Lemma empty_PORT_is_not_used :
  ({[ "PORT" := "" ]} : gmap string string) !! "PORT" = Some ""
  /\ PORT {[ "PORT" := "" ]} = JS.Num 5000
  /\ PORT {[ "PORT" := "" ]} <> JS.Str ""
  /\ (forall rt, listen_target rt {[ "PORT" := "99999" ]} = BadPort)
  /\ (forall rt, listen_target rt {[ "PORT" := "0" ]} = AnyTcpPort)
  /\ (forall rt, listen_target rt {[ "PORT" := "not a port" ]} = PipePath "not a port").
Proof.
  split; [vm_compute; reflexivity |]. split; [vm_compute; reflexivity |].
  split; [vm_compute; discriminate |].
  repeat split; intros rt; vm_compute; reflexivity.
Qed.

(** C5, as the code has it: no request is answered with a 5xx status (the
    status is one of 200, 304, 400, 404, 413, 415); a request the JSON body
    parser lets through is answered by finalhandler's 404 page when its
    path matches neither route, or when its method is none of GET, HEAD and
    OPTIONS; and on a path that does match a route, such a request is
    answered 200 when it is an OPTIONS request (with an Allow header) or a
    HEAD request without [If-None-Match] (with an empty body). *)
Theorem unmatched_is_404 (rt : Runtime) (req : Request) :
  (In (status (app rt req)) [200; 304; 400; 404; 413; 415] /\ status (app rt req) < 500)
  /\ (BodyParser.jsonParser rt req = Continue ->
      (Express.matchPath "/" (req_path req) = false
       /\ Express.matchPath "/products" (req_path req) = false)
      \/ (req_method req <> GET /\ req_method req <> HEAD /\ req_method req <> OPTIONS) ->
      app rt req = Express.finalhandler rt req 404 /\ status (app rt req) = 404)
  /\ (BodyParser.jsonParser rt req = Continue ->
      Express.matchPath "/" (req_path req) = true
      \/ Express.matchPath "/products" (req_path req) = true ->
      (req_method req = OPTIONS ->
       status (app rt req) = 200 /\ is_Some (allow (app rt req)))
      /\ (req_method req = HEAD ->
          header_truthy req "if-none-match" = false ->
          status (app rt req) = 200 /\ body (app rt req) = "")).
Proof.
  split; [| split].
  - rewrite app_eq.
    destruct (jsonParser_cases rt req) as [-> | [-> | [-> | ->]]];
      [ destruct (handle_routes_status rt req) as [-> | [-> | ->]] | .. ];
      cbn; split; (lia || tauto).
  - intros Hjson Hun. rewrite app_eq, Hjson, (handle_routes_unmatched rt req Hun).
    split; reflexivity.
  - intros Hjson Hmatch. rewrite app_eq, Hjson. split.
    + intros Hm. exact (handle_options_matched rt req Hm Hmatch).
    + intros Hm Hnm.
      assert (Hh : Express.handles_method (req_method req) = true) by (rewrite Hm; reflexivity).
      destruct (handle_matched_unconditional rt req Hh Hnm Hmatch) as [Hs Hb].
      split; [exact Hs |]. rewrite Hb, Hm. reflexivity.
Qed.

Lemma unmatched_is_404_witness :
  status (app Sample.runtime (Sample.request GET "/unknown")) = 404
  /\ status (app Sample.runtime (Sample.request POST "/products")) = 404
  /\ status (app Sample.runtime (Sample.request HEAD "/products")) = 200
  /\ body (app Sample.runtime (Sample.request HEAD "/products")) = "".
Proof.
  destruct (unmatched_is_404 Sample.runtime (Sample.request GET "/unknown"))
    as (_ & Hget & _).
  destruct (unmatched_is_404 Sample.runtime (Sample.request POST "/products"))
    as (_ & Hpost & _).
  destruct (unmatched_is_404 Sample.runtime (Sample.request HEAD "/products"))
    as (_ & _ & Hhead).
  split; [apply Hget; [vm_compute; reflexivity | left; split; vm_compute; reflexivity] |].
  split; [apply Hpost; [vm_compute; reflexivity | right; repeat split; discriminate] |].
  apply Hhead; [vm_compute; reflexivity | right; vm_compute; reflexivity | reflexivity
               | vm_compute; reflexivity].
Defined.

(** C5 as stated fails: [HEAD /] and [OPTIONS /products] are neither
    [GET /] nor [GET /products], and both are answered 200. *)
Lemma head_and_options_are_answered :
  (req_method (Sample.request HEAD "/") <> GET
   /\ forall rt, status (app rt (Sample.request HEAD "/")) = 200)
  /\ (req_method (Sample.request OPTIONS "/products") <> GET
      /\ forall rt, status (app rt (Sample.request OPTIONS "/products")) = 200).
Proof.
  repeat split; try discriminate; intros; vm_compute; reflexivity.
Qed.

(** C6, as the code has it: GET [/products] is idempotent in everything
    but the Date header.  Every request of a sequence of GET requests to
    [/products] that the body parser lets through, without
    [If-None-Match], gets the same response: status 200, the JSON content
    type, the entity tag of the payload and the products payload, whatever
    was served before it and whatever the clock shows; serving leaves the
    program as it was; and each response goes out under the Date of the
    second it is written in. *)
Theorem products_idempotent (rt : Runtime) (env : gmap string string)
    (reqs : list Request) :
  Forall (fun req => req_method req = GET
                     /\ req_path req = "/products"
                     /\ BodyParser.jsonParser rt req = Continue
                     /\ header_truthy req "if-none-match" = false) reqs ->
  let expected :=
    {| status := 200;
       content_type := Some "application/json; charset=utf-8";
       allow := None;
       etag := if String.eqb (etag_of rt products_text) "" then None
               else Some (etag_of rt products_text);
       body := products_text |} in
  snd (serve_all rt (start rt env) reqs) = repeat expected (length reqs)
  /\ fst (serve_all rt (start rt env) reqs) = start rt env
  /\ (forall req now, In req reqs ->
        snd (serve_at rt (fst (serve_all rt (start rt env) reqs)) now req)
        = {| Node.wire_date := now; Node.wire_response := expected |}).
Proof.
  intros Hreqs expected. rewrite serve_all_map. cbn [fst snd].
  assert (Hone : forall req, In req reqs -> snd (serve rt (start rt env) req) = expected).
  { intros req Hin. apply List.Forall_forall with (x := req) in Hreqs; [| exact Hin].
    destruct Hreqs as (Hm & Hp & Hjson & Hnm).
    exact (products_response rt req Hm Hp Hjson Hnm). }
  split; [| split; [reflexivity |]].
  - clear Hreqs. induction reqs as [| req rest IH]; [reflexivity |].
    cbn [List.map length repeat]. f_equal.
    + apply Hone. left. reflexivity.
    + apply IH. intros r Hr. apply Hone. right. exact Hr.
  - intros req now Hin. unfold serve_at.
    pose proof (Hone req Hin) as H. unfold serve in *. cbn [snd] in *. rewrite H. reflexivity.
Qed.

Lemma products_idempotent_witness :
  snd (serve_all Sample.runtime (start Sample.runtime ∅)
         [Sample.get_products; Sample.request GET "/products"])
  = repeat {| status := 200;
              content_type := Some "application/json; charset=utf-8";
              allow := None;
              etag := Some "W/tag";
              body := products_text |} 2.
Proof.
  apply (products_idempotent Sample.runtime ∅
           [Sample.get_products; Sample.request GET "/products"]).
  repeat constructor; vm_compute; reflexivity.
Defined.

(** C6 as stated fails on the Date header: the same GET [/products]
    served in two different seconds goes out with the same status, headers
    and body, and yet the two responses are not identical. *)
Lemma same_request_different_date :
  req_method Sample.get_products = GET
  /\ req_path Sample.get_products = "/products"
  /\ (forall rt env,
        Node.wire_response (snd (serve_at rt (start rt env) 0 Sample.get_products))
        = Node.wire_response (snd (serve_at rt (start rt env) 1 Sample.get_products))
        /\ Node.wire_date (snd (serve_at rt (start rt env) 0 Sample.get_products)) = 0
        /\ Node.wire_date (snd (serve_at rt (start rt env) 1 Sample.get_products)) = 1
        /\ snd (serve_at rt (start rt env) 0 Sample.get_products)
           <> snd (serve_at rt (start rt env) 1 Sample.get_products)).
Proof.
  split; [reflexivity |]. split; [reflexivity |].
  intros rt env. repeat split. intros H.
  apply (f_equal Node.wire_date) in H. discriminate H.
Qed.

(** C7: the products are a fixed sequence of exactly three records, each
    with a positive id that no other record has, a non-empty name and a
    non-negative price; each record is served as an object of its id, name
    and price; and after any sequence of requests the program is what it
    was and a GET to [/products] is still answered with exactly these
    three records, in this order. *)
Theorem products_invariant :
  length products = 3%nat
  /\ Forall (fun p => 0 < id p /\ name p <> "" /\ 0 <= price p) products
  /\ NoDup (List.map id products)
  /\ (forall p,
        product_json p
        = JObj [("id", JNum (id p)); ("name", JStr (name p)); ("price", JNum (price p))])
  /\ (forall req,
        productsHandler req
        = Express.Json (JObj [("products", JArr (List.map product_json products))]))
  /\ (forall rt env history req,
        req_method req = GET ->
        req_path req = "/products" ->
        BodyParser.jsonParser rt req = Continue ->
        header_truthy req "if-none-match" = false ->
        fst (serve_all rt (start rt env) history) = start rt env
        /\ program_app (fst (serve_all rt (start rt env) history)) = stack rt
        /\ body (snd (serve rt (fst (serve_all rt (start rt env) history)) req))
           = Text.q "{'products':[{'id':1,'name':'Product A','price':100},{'id':2,'name':'Product B','price':150},{'id':3,'name':'Product C','price':200}]}").
Proof.
  split; [reflexivity |]. split.
  { repeat constructor; cbn; (lia || discriminate). }
  split.
  { cbn [List.map products id]. compute_done. }
  split; [reflexivity |]. split; [reflexivity |].
  intros rt env history req Hm Hp Hjson Hnm. rewrite serve_all_map. cbn [fst].
  split; [reflexivity |]. split; [reflexivity |].
  unfold serve. cbn [snd start program_app].
  change (Express.handle rt (stack rt) [] req) with (app rt req).
  rewrite (products_response rt req Hm Hp Hjson Hnm). reflexivity.
Qed.

Lemma products_invariant_witness :
  body (snd (serve Sample.runtime
               (fst (serve_all Sample.runtime (start Sample.runtime ∅)
                       [Sample.get_root; Sample.post_unknown_not_json]))
               Sample.get_products))
  = Text.q "{'products':[{'id':1,'name':'Product A','price':100},{'id':2,'name':'Product B','price':150},{'id':3,'name':'Product C','price':200}]}".
Proof.
  destruct products_invariant as (_ & _ & _ & _ & _ & Hserved).
  apply (Hserved Sample.runtime ∅ [Sample.get_root; Sample.post_unknown_not_json]
           Sample.get_products); vm_compute; reflexivity.
Defined.

(** C9: when [PORT] is set to the empty string the resolved port is 5000,
    as for every falsy value of [process.env.PORT]; a non-empty value is
    taken as it is, as a string, whether or not it spells a port number. *)
Theorem falsy_PORT_defaults (env : gmap string string) :
  (env !! "PORT" = Some "" -> PORT env = JS.Num 5000)
  /\ (JS.truthy (JS.env_get env "PORT") = false -> PORT env = JS.Num 5000)
  /\ (forall s, env !! "PORT" = Some s -> s <> "" -> PORT env = JS.Str s).
Proof.
  unfold PORT, JS.or, JS.env_get. repeat split.
  - intros ->. reflexivity.
  - intros ->. reflexivity.
  - intros s -> Hs. cbn. destruct (String.eqb_spec s ""); [contradiction | reflexivity].
Qed.

Lemma falsy_PORT_defaults_witness :
  PORT {[ "PORT" := "" ]} = JS.Num 5000
  /\ PORT {[ "PORT" := "not a port" ]} = JS.Str "not a port"
  /\ PORT {[ "PORT" := "99999" ]} = JS.Str "99999".
Proof.
  split; [| split].
  - apply (falsy_PORT_defaults {[ "PORT" := "" ]}). vm_compute; reflexivity.
  - apply (falsy_PORT_defaults {[ "PORT" := "not a port" ]});
      [vm_compute; reflexivity | discriminate].
  - apply (falsy_PORT_defaults {[ "PORT" := "99999" ]});
      [vm_compute; reflexivity | discriminate].
Defined.

(** C10, as the code has it: both handlers make the same call on [res] for
    every request; two requests with the same method and no [If-None-Match]
    header get identical responses from a handler, so two such GET requests
    to the same route that pass the body parser get identical responses from
    the service; and serving a request leaves the program as it was. *)
Theorem handlers_ignore_request (rt : Runtime) (r1 r2 : Request) :
  (rootHandler r1 = rootHandler r2 /\ productsHandler r1 = productsHandler r2)
  /\ (req_method r1 = req_method r2 ->
      header_truthy r1 "if-none-match" = false ->
      header_truthy r2 "if-none-match" = false ->
      (forall call, Express.respond rt r1 call = Express.respond rt r2 call)
      /\ (req_method r1 = GET ->
          req_path r1 = req_path r2 ->
          req_path r1 = "/" \/ req_path r1 = "/products" ->
          BodyParser.jsonParser rt r1 = Continue ->
          BodyParser.jsonParser rt r2 = Continue ->
          app rt r1 = app rt r2))
  /\ (forall prog, fst (serve rt prog r1) = prog /\ fst (serve rt prog r2) = prog).
Proof.
  split; [split; reflexivity |]. split; [| intros prog; split; reflexivity].
  intros Hm Hn1 Hn2.
  assert (Hresp : forall call, Express.respond rt r1 call = Express.respond rt r2 call).
  { intros [text | value]; unfold Express.respond;
      rewrite (send_unconditional rt r1 _ _ _ Hn1), (send_unconditional rt r2 _ _ _ Hn2), Hm;
      reflexivity. }
  split; [exact Hresp |].
  intros Hget Hpath Hroute Hj1 Hj2.
  assert (Hget2 : req_method r2 = GET) by congruence.
  rewrite !app_eq, Hj1, Hj2.
  destruct Hroute as [Hp | Hp]; assert (Hp2 : req_path r2 = _) by (rewrite <- Hpath; exact Hp).
  - rewrite (handle_get_root rt r1 Hget Hp), (handle_get_root rt r2 Hget2 Hp2). apply Hresp.
  - rewrite (handle_get_products rt r1 Hget Hp), (handle_get_products rt r2 Hget2 Hp2).
    apply Hresp.
Qed.

Lemma handlers_ignore_request_witness :
  app Sample.runtime Sample.get_root = app Sample.runtime (Sample.request GET "/").
Proof.
  apply (handlers_ignore_request Sample.runtime Sample.get_root (Sample.request GET "/"));
    try (vm_compute; reflexivity).
  left. reflexivity.
Defined.

(** C10 as stated fails: two GET requests to [/], both let through by the
    body parser and both dispatched to the root handler, get different
    responses when one of them carries [If-None-Match: *]. *)
Lemma same_handler_different_responses :
  (forall rt, BodyParser.jsonParser rt Sample.get_root = Continue
              /\ BodyParser.jsonParser rt Sample.get_root_conditional = Continue)
  /\ (forall rt, app rt Sample.get_root
                 = Express.respond rt Sample.get_root (rootHandler Sample.get_root)
                 /\ app rt Sample.get_root_conditional
                    = Express.respond rt Sample.get_root_conditional
                        (rootHandler Sample.get_root_conditional))
  /\ (forall rt, status (app rt Sample.get_root) = 200
                 /\ status (app rt Sample.get_root_conditional) = 304
                 /\ body (app rt Sample.get_root) = "Hello, World from the Dockerize App!"
                 /\ body (app rt Sample.get_root_conditional) = "").
Proof.
  repeat split; intros; vm_compute; reflexivity.
Qed.

(** ** Further properties of the service *)

(** X1: the resolved port is never [undefined], empty or zero: it is 5000,
    or the non-empty string the environment gives for [PORT]; and no other
    environment variable has a say in it. *)
Theorem PORT_is_always_usable (env : gmap string string) :
  JS.truthy (PORT env) = true
  /\ (PORT env = JS.Num 5000
      \/ exists s, s <> "" /\ env !! "PORT" = Some s /\ PORT env = JS.Str s)
  /\ (forall k v, k <> "PORT" -> PORT (<[k := v]> env) = PORT env).
Proof.
  unfold PORT, JS.or, JS.env_get. split; [| split].
  - destruct (env !! "PORT") as [s |] eqn:E; [| reflexivity].
    cbn. destruct (String.eqb_spec s ""); cbn; [reflexivity |].
    destruct (String.eqb_spec s ""); [contradiction | reflexivity].
  - destruct (env !! "PORT") as [s |] eqn:E; [| left; reflexivity].
    cbn. destruct (String.eqb_spec s ""); [left; reflexivity |].
    right. exists s. auto.
  - intros k v Hk. rewrite lookup_insert_ne by exact Hk. reflexivity.
Qed.

Lemma PORT_is_always_usable_witness :
  PORT (<[ "HOME" := "/root" ]> {[ "PORT" := "3000" ]}) = PORT {[ "PORT" := "3000" ]}.
Proof.
  apply (PORT_is_always_usable {[ "PORT" := "3000" ]}). discriminate.
Defined.

(** X2: the line printed once the server listens ends with the resolved
    port: a non-empty [PORT] is pasted as it is, and an absent or empty one
    prints 5000. *)
Theorem listening_log_names_port (env : gmap string string) :
  (forall s, env !! "PORT" = Some s -> s <> "" ->
     listening_log (listen env) = "Server is running on http://localhost:" +:+ s)
  /\ (JS.truthy (JS.env_get env "PORT") = false ->
      listening_log (listen env) = "Server is running on http://localhost:5000").
Proof.
  unfold listen, PORT, JS.or, JS.env_get. cbn [listening_log]. split.
  - intros s -> Hs. cbn [JS.truthy].
    destruct (String.eqb_spec s ""); [contradiction | reflexivity].
  - intros ->. reflexivity.
Qed.

Lemma listening_log_names_port_witness :
  listening_log (listen {[ "PORT" := "staging" ]})
  = "Server is running on http://localhost:staging"
  /\ listening_log (listen {[ "PORT" := "" ]})
     = "Server is running on http://localhost:5000".
Proof.
  split.
  - apply (listening_log_names_port {[ "PORT" := "staging" ]});
      [vm_compute; reflexivity | discriminate].
  - apply (listening_log_names_port {[ "PORT" := "" ]}). vm_compute; reflexivity.
Defined.

(** X3: the products route is matched without regard to letter case and
    with or without one trailing slash: a GET request to such a path that
    the body parser lets through, with no [If-None-Match], gets the same
    200 response as [GET /products]. *)
Theorem products_route_is_loose (rt : Runtime) (req : Request) :
  req_method req = GET ->
  Text.lower (req_path req) = "/products" \/ Text.lower (req_path req) = "/products/" ->
  BodyParser.jsonParser rt req = Continue ->
  header_truthy req "if-none-match" = false ->
  status (app rt req) = 200
  /\ content_type (app rt req) = Some "application/json; charset=utf-8"
  /\ body (app rt req) = products_text.
Proof.
  intros Hm Hp Hjson Hnm.
  assert (Hmatch : Express.matchPath "/products" (req_path req) = true).
  { rewrite matchPath_products. destruct Hp as [-> | ->]; reflexivity. }
  rewrite app_eq, Hjson, (handle_products_route rt req) by (rewrite ?Hm; auto).
  unfold productsHandler, Express.respond.
  rewrite (send_unconditional rt req _ _ _ Hnm), Hm.
  repeat split; vm_compute; reflexivity.
Qed.

Lemma products_route_is_loose_witness :
  status (app Sample.runtime (Sample.request GET "/Products/")) = 200
  /\ content_type (app Sample.runtime (Sample.request GET "/Products/"))
     = Some "application/json; charset=utf-8"
  /\ body (app Sample.runtime (Sample.request GET "/Products/")) = products_text.
Proof.
  apply (products_route_is_loose Sample.runtime (Sample.request GET "/Products/"));
    try (vm_compute; reflexivity).
  right. vm_compute; reflexivity.
Defined.

(** X4: the greeting is served as HTML: a GET request to [/] that the body
    parser lets through, with no [If-None-Match], is answered with
    [Content-Type: text/html; charset=utf-8], no Allow header, and the
    entity tag of the greeting whenever the tag function yields one. *)
Theorem greeting_headers (rt : Runtime) (req : Request) :
  req_method req = GET ->
  req_path req = "/" ->
  BodyParser.jsonParser rt req = Continue ->
  header_truthy req "if-none-match" = false ->
  content_type (app rt req) = Some "text/html; charset=utf-8"
  /\ allow (app rt req) = None
  /\ (etag_of rt hello_text <> "" -> etag (app rt req) = Some (etag_of rt hello_text)).
Proof.
  intros Hm Hp Hjson Hnm.
  rewrite app_eq, Hjson, (handle_get_root rt req Hm Hp).
  unfold rootHandler, Express.respond.
  rewrite (send_unconditional rt req _ _ _ Hnm). cbn [content_type allow etag].
  repeat split. intros Htag. fold hello_text.
  destruct (String.eqb_spec (etag_of rt hello_text) ""); [contradiction | reflexivity].
Qed.

Lemma greeting_headers_witness :
  content_type (app Sample.runtime Sample.get_root) = Some "text/html; charset=utf-8"
  /\ allow (app Sample.runtime Sample.get_root) = None
  /\ (etag_of Sample.runtime hello_text <> ""
      -> etag (app Sample.runtime Sample.get_root) = Some (etag_of Sample.runtime hello_text)).
Proof.
  apply (greeting_headers Sample.runtime Sample.get_root); vm_compute; reflexivity.
Defined.

(** X5: HEAD is GET without the body, on every path and for every request:
    the same status, Content-Type, Allow and ETag, and an empty body,
    whether a route answers, the body parser fails, or nothing matches. *)
Theorem head_mirrors_get (rt : Runtime) (req : Request) :
  req_method req = GET ->
  app rt (with_method HEAD req) = without_body (app rt req).
Proof.
  intros Hm. rewrite !app_eq, jsonParser_with_method.
  destruct (BodyParser.jsonParser rt req) as [| e].
  - cbn [Express.handle]. cbn [with_method req_path req_method]. rewrite Hm.
    cbn [Express.handles_method].
    destruct (Express.matchPath "/" (req_path req)); [apply respond_head; exact Hm |].
    destruct (Express.matchPath "/products" (req_path req)); [apply respond_head; exact Hm |].
    reflexivity.
  - reflexivity.
Qed.

Lemma head_mirrors_get_witness :
  app Sample.runtime (with_method HEAD Sample.get_products)
  = without_body (app Sample.runtime Sample.get_products).
Proof.
  apply (head_mirrors_get Sample.runtime Sample.get_products). reflexivity.
Defined.

(** X6: a failure of the body parser pre-empts routing: whatever the
    method and the path, registered or not, the request is answered by the
    error page with the parser's status, which is 400, 413 or 415. *)
Theorem parser_failure_preempts_routing (rt : Runtime) (req : Request) (e : Z) :
  BodyParser.jsonParser rt req = Error e ->
  (e = 400 \/ e = 413 \/ e = 415)
  /\ app rt req = Express.finalhandler rt req e
  /\ status (app rt req) = e
  /\ etag (app rt req) = None.
Proof.
  intros Herr.
  assert (He : e = 400 \/ e = 413 \/ e = 415).
  { destruct (jsonParser_cases rt req) as [H | [H | [H | H]]];
      rewrite H in Herr; [discriminate | ..]; injection Herr as <-; auto. }
  split; [exact He |].
  rewrite (app_rejected rt req e Herr).
  assert (Hcode : Express.getErrorStatusCode e = e)
    by (destruct He as [-> | [-> | ->]]; reflexivity).
  rewrite Hcode. repeat split.
Qed.

Lemma parser_failure_preempts_routing_witness :
  status (app Sample.runtime Sample.post_unknown_not_json) = 400.
Proof.
  apply (parser_failure_preempts_routing Sample.runtime Sample.post_unknown_not_json 400).
  vm_compute; reflexivity.
Defined.

(** X7: a body is only parsed when its Content-Type is [application/json]:
    under any other media type the bytes are not looked at, and a GET to
    [/] with no [If-None-Match] gets the greeting whatever the body holds. *)
Theorem other_media_types_are_not_parsed (rt : Runtime) (req : Request) :
  req_method req = GET ->
  req_path req = "/" ->
  BodyParser.shouldParse rt req = false ->
  header_truthy req "if-none-match" = false ->
  BodyParser.jsonParser rt req = Continue
  /\ status (app rt req) = 200
  /\ body (app rt req) = hello_text.
Proof.
  intros Hm Hp Htype Hnm.
  pose proof (jsonParser_other_type rt req Htype) as Hjson.
  split; [exact Hjson |].
  rewrite app_eq, Hjson, (handle_get_root rt req Hm Hp).
  unfold rootHandler, Express.respond.
  rewrite (send_unconditional rt req _ _ _ Hnm), Hm. split; reflexivity.
Qed.

Lemma other_media_types_are_not_parsed_witness :
  BodyParser.jsonParser Sample.strict_runtime Sample.get_root_text_plain = Continue
  /\ status (app Sample.strict_runtime Sample.get_root_text_plain) = 200
  /\ body (app Sample.strict_runtime Sample.get_root_text_plain) = hello_text.
Proof.
  apply (other_media_types_are_not_parsed Sample.strict_runtime Sample.get_root_text_plain);
    vm_compute; reflexivity.
Defined.

(** X8: an empty body is accepted as JSON: with [Content-Type:
    application/json], no content coding, a UTF charset that has a decoder
    and no announced length other than zero, a body of length zero passes
    the parser, although [JSON.parse] would reject the empty text. *)
Theorem empty_json_body_passes (rt : Runtime) (req : Request) :
  req_body req = "" ->
  header_truthy req "content-encoding" = false ->
  String.prefix "utf-" (BodyParser.getCharset rt req) = true ->
  BodyParser.decoder_exists rt (BodyParser.getCharset rt req) = true ->
  (forall n, BodyParser.stream_length req = Some n -> n = 0) ->
  BodyParser.jsonParser rt req = Continue.
Proof.
  intros Hbody Hidentity Hcharset Hdecoder Hlength. unfold BodyParser.jsonParser.
  destruct (negb (BodyParser.hasBody req)); [reflexivity |].
  destruct (negb (BodyParser.shouldParse rt req)); [reflexivity |].
  rewrite Hcharset, (read_identity rt req _ Hidentity), Hdecoder, Hbody. cbn [negb].
  destruct (BodyParser.stream_length req) as [n |]; [| reflexivity].
  rewrite (Hlength n eq_refl). reflexivity.
Qed.

Lemma empty_json_body_passes_witness :
  JSON_parse_ok Sample.strict_runtime "" = false
  /\ BodyParser.jsonParser Sample.strict_runtime Sample.get_products_empty_json = Continue.
Proof.
  split; [reflexivity |].
  apply (empty_json_body_passes Sample.strict_runtime Sample.get_products_empty_json);
    try (vm_compute; reflexivity).
  intros n Hn. vm_compute in Hn. injection Hn as <-. reflexivity.
Defined.

(** X9: the parser is strict: a JSON-typed body without content coding,
    under a UTF charset that has a decoder and within the 100kb limit,
    whose decoded text is not empty and has a first character after JSON
    whitespace that is neither an opening brace nor an opening bracket (a
    number, a string, a literal, or whitespace alone), is answered 400 even
    when [JSON.parse] would accept the text. *)
Theorem json_primitives_are_rejected (rt : Runtime) (req : Request) :
  BodyParser.hasBody req = true ->
  BodyParser.shouldParse rt req = true ->
  header_truthy req "content-encoding" = false ->
  String.prefix "utf-" (BodyParser.getCharset rt req) = true ->
  BodyParser.decoder_exists rt (BodyParser.getCharset rt req) = true ->
  Z.of_nat (String.length (req_body req)) <= BodyParser.limit ->
  (forall n, BodyParser.stream_length req = Some n -> n <= BodyParser.limit) ->
  BodyParser.decode rt (BodyParser.getCharset rt req) (req_body req) <> "" ->
  (forall c,
     Text.firstchar (BodyParser.decode rt (BodyParser.getCharset rt req) (req_body req))
     = Some c -> c <> "{"%char /\ c <> "["%char) ->
  BodyParser.jsonParser rt req = Error 400 /\ status (app rt req) = 400.
Proof.
  intros Hbody Htype Hidentity Hcharset Hdecoder Hlimit Hannounced Hne Hfirst.
  assert (Hparse : BodyParser.parse rt
                     (BodyParser.decode rt (BodyParser.getCharset rt req) (req_body req))
                   = Error 400).
  { unfold BodyParser.parse.
    destruct (String.eqb_spec
                (BodyParser.decode rt (BodyParser.getCharset rt req) (req_body req)) "");
      [contradiction |].
    destruct (Text.firstchar _) as [c |]; [| reflexivity].
    destruct (Hfirst c eq_refl) as [Hbrace Hbracket].
    apply Ascii.eqb_neq in Hbrace, Hbracket. rewrite Hbrace, Hbracket. reflexivity. }
  assert (Hjson : BodyParser.jsonParser rt req = Error 400).
  { rewrite (jsonParser_reads rt req Hbody Htype), Hcharset,
      (read_identity rt req _ Hidentity), Hdecoder, Hparse. cbn [negb].
    destruct (Z.ltb_spec BodyParser.limit (Z.of_nat (String.length (req_body req))));
      [lia |].
    destruct (BodyParser.stream_length req) as [n |]; [| reflexivity].
    specialize (Hannounced n eq_refl).
    destruct (Z.ltb_spec BodyParser.limit n); [lia |].
    destruct (negb _); reflexivity. }
  split; [exact Hjson |]. rewrite (app_rejected rt req 400 Hjson). reflexivity.
Qed.

Lemma json_primitives_are_rejected_witness :
  JSON_parse_ok Sample.runtime (req_body Sample.get_root_primitive) = true
  /\ BodyParser.jsonParser Sample.runtime Sample.get_root_primitive = Error 400
  /\ status (app Sample.runtime Sample.get_root_primitive) = 400.
Proof.
  split; [reflexivity |].
  apply (json_primitives_are_rejected Sample.runtime Sample.get_root_primitive);
    try (vm_compute; reflexivity).
  - vm_compute. discriminate.
  - intros n Hn. vm_compute in Hn. injection Hn as <-. vm_compute. discriminate.
  - vm_compute. discriminate.
  - intros c Hc. vm_compute in Hc. injection Hc as <-. split; discriminate.
Defined.

(** X10: the 100kb limit is on the size alone: a JSON-typed body without
    content coding, under a charset that starts with [utf-], is answered
    413 when its Content-Length announces more than 102400 bytes, and also
    when the charset has a decoder and more than 102400 bytes arrive,
    whether the body is well-formed JSON or not. *)
Theorem oversized_body_is_413 (rt : Runtime) (req : Request) :
  BodyParser.hasBody req = true ->
  BodyParser.shouldParse rt req = true ->
  header_truthy req "content-encoding" = false ->
  String.prefix "utf-" (BodyParser.getCharset rt req) = true ->
  (exists n, BodyParser.stream_length req = Some n /\ 102400 < n)
  \/ (BodyParser.decoder_exists rt (BodyParser.getCharset rt req) = true
      /\ 102400 < Z.of_nat (String.length (req_body req))) ->
  BodyParser.jsonParser rt req = Error 413 /\ status (app rt req) = 413.
Proof.
  intros Hbody Htype Hidentity Hcharset Hlong.
  assert (Hjson : BodyParser.jsonParser rt req = Error 413).
  { rewrite (jsonParser_reads rt req Hbody Htype), Hcharset,
      (read_identity rt req _ Hidentity). cbn [negb]. unfold BodyParser.limit.
    destruct Hlong as [(n & Hn & Hbig) | [Hdecoder Hbig]].
    - rewrite Hn. destruct (Z.ltb_spec 102400 n); [reflexivity | lia].
    - destruct (match BodyParser.stream_length req with
                | Some n => 102400 <? n
                | None => false
                end); [reflexivity |].
      rewrite Hdecoder. cbn [negb].
      destruct (Z.ltb_spec 102400 (Z.of_nat (String.length (req_body req))));
        [reflexivity | lia]. }
  split; [exact Hjson |]. rewrite (app_rejected rt req 413 Hjson). reflexivity.
Qed.

Lemma oversized_body_is_413_witness :
  status (app Sample.runtime Sample.get_root_oversized) = 413.
Proof.
  apply (oversized_body_is_413 Sample.runtime Sample.get_root_oversized);
    try (vm_compute; reflexivity).
  left. exists 102401. split; [vm_compute; reflexivity | lia].
Defined.

(** X11: revalidation round trip: a GET request to a route, without
    If-Modified-Since and Cache-Control, whose If-None-Match lists the
    entity tag of the route's payload (in its strong or weak spelling) is
    answered 304 with that tag, no Content-Type and an empty body. *)
Theorem revalidation_gets_304 (rt : Runtime) (req : Request) (inm : string) :
  req_method req = GET ->
  BodyParser.jsonParser rt req = Continue ->
  header req "if-none-match" = Some inm ->
  inm <> "" ->
  header_truthy req "if-modified-since" = false ->
  header_truthy req "cache-control" = false ->
  forall payload,
    (req_path req = "/" /\ payload = hello_text)
    \/ (req_path req = "/products" /\ payload = products_text) ->
    etag_of rt payload <> "" ->
    (exists candidate, In candidate (Express.parseTokenList inm)
                       /\ Express.etag_matches (etag_of rt payload) candidate = true) ->
    app rt req
    = {| status := 304; content_type := None; allow := None;
         etag := Some (etag_of rt payload); body := "" |}.
Proof.
  intros Hm Hjson Hinm Hne Hims Hcc payload Hroute Htag Hlisted.
  pose proof (fresh_listed_tag req inm _ Hm Hinm Hne Hims Hcc Hlisted) as Hfresh.
  assert (Hsend : forall ctype,
    Express.send rt req None ctype payload
    = {| status := 304; content_type := None; allow := None;
         etag := Some (etag_of rt payload); body := "" |}).
  { intros ctype. rewrite send_fresh;
      destruct (String.eqb_spec (etag_of rt payload) ""); try contradiction; auto. }
  rewrite app_eq, Hjson.
  destruct Hroute as [[Hp ->] | [Hp ->]].
  - rewrite (handle_get_root rt req Hm Hp). apply Hsend.
  - rewrite (handle_get_products rt req Hm Hp).
    unfold productsHandler, Express.respond.
    replace (JSON.stringify (JObj [("products", JArr (List.map product_json products))]))
      with products_text by (vm_compute; reflexivity).
    apply Hsend.
Qed.

Lemma revalidation_gets_304_witness :
  app Sample.runtime Sample.get_root_revalidate
  = {| status := 304; content_type := None; allow := None;
       etag := Some "W/tag"; body := "" |}.
Proof.
  apply (revalidation_gets_304 Sample.runtime Sample.get_root_revalidate "abc, W/tag"
           eq_refl eq_refl eq_refl ltac:(discriminate) eq_refl eq_refl hello_text).
  - left. split; reflexivity.
  - discriminate.
  - exists "W/tag". split; [right; left; reflexivity | reflexivity].
Defined.

(** X12: [Cache-Control: no-cache] on the request switches revalidation
    off: a GET to a route that the body parser lets through is answered 200
    with the full payload, even when it carries [If-None-Match]. *)
Theorem no_cache_forces_full_response (rt : Runtime) (req : Request) (cc : string) :
  req_method req = GET ->
  BodyParser.jsonParser rt req = Continue ->
  header req "cache-control" = Some cc ->
  Express.no_cache cc = true ->
  (req_path req = "/" -> status (app rt req) = 200 /\ body (app rt req) = hello_text)
  /\ (req_path req = "/products" ->
      status (app rt req) = 200 /\ body (app rt req) = products_text).
Proof.
  intros Hm Hjson Hcc Hno.
  assert (Hsend : forall ctype chunk,
    status (Express.send rt req None ctype chunk) = 200
    /\ body (Express.send rt req None ctype chunk) = chunk).
  { intros ctype chunk. unfold Express.send.
    rewrite (fresh_no_cache req cc _ Hcc Hno), Hm. split; reflexivity. }
  rewrite app_eq, Hjson. split; intros Hp.
  - rewrite (handle_get_root rt req Hm Hp). apply Hsend.
  - rewrite (handle_get_products rt req Hm Hp).
    unfold productsHandler, Express.respond.
    destruct (Hsend "application/json"
                (JSON.stringify (JObj [("products", JArr (List.map product_json products))])))
      as [Hs Hb].
    split; [exact Hs | rewrite Hb; vm_compute; reflexivity].
Qed.

Lemma no_cache_forces_full_response_witness :
  header_truthy Sample.get_products_no_cache "if-none-match" = true
  /\ status (app Sample.runtime Sample.get_products_no_cache) = 200
  /\ body (app Sample.runtime Sample.get_products_no_cache) = products_text.
Proof.
  split; [vm_compute; reflexivity |].
  apply (no_cache_forces_full_response Sample.runtime Sample.get_products_no_cache
           "max-age=0, no-cache"); vm_compute; reflexivity.
Defined.

(** X13: a 304 is never sent unasked: whenever the service answers 304
    the request is a GET or a HEAD that carries [If-None-Match] and passed
    the body parser, and the response has no Content-Type and no body. *)
Theorem not_modified_only_when_asked (rt : Runtime) (req : Request) :
  status (app rt req) = 304 ->
  (req_method req = GET \/ req_method req = HEAD)
  /\ header_truthy req "if-none-match" = true
  /\ BodyParser.jsonParser rt req = Continue
  /\ content_type (app rt req) = None
  /\ body (app rt req) = "".
Proof.
  rewrite app_eq.
  destruct (jsonParser_cases rt req) as [-> | [-> | [-> | ->]]];
    try (cbn; discriminate).
  intros H304.
  destruct (handle_gets_304_inv rt req
              [Express.Get "/" rootHandler; Express.Get "/products" productsHandler]
              ltac:(repeat constructor; eauto) [] H304) as (Hm & Hnm & Hct & Hb).
  auto.
Qed.

Lemma not_modified_only_when_asked_witness :
  (req_method Sample.get_root_conditional = GET
   \/ req_method Sample.get_root_conditional = HEAD)
  /\ header_truthy Sample.get_root_conditional "if-none-match" = true
  /\ BodyParser.jsonParser Sample.runtime Sample.get_root_conditional = Continue
  /\ content_type (app Sample.runtime Sample.get_root_conditional) = None
  /\ body (app Sample.runtime Sample.get_root_conditional) = "".
Proof.
  apply (not_modified_only_when_asked Sample.runtime Sample.get_root_conditional).
  vm_compute; reflexivity.
Defined.

(** X14: the automatic OPTIONS answer: an OPTIONS request the body parser
    lets through is answered 200 with an Allow header when its path is one
    of the two routes', and by the 404 page, without Allow, when it is not,
    whether or not it carries [If-None-Match]. *)
Theorem options_answer (rt : Runtime) (req : Request) :
  req_method req = OPTIONS ->
  BodyParser.jsonParser rt req = Continue ->
  (Express.matchPath "/" (req_path req) = true
   \/ Express.matchPath "/products" (req_path req) = true ->
   status (app rt req) = 200 /\ is_Some (allow (app rt req)))
  /\ (Express.matchPath "/" (req_path req) = false
      /\ Express.matchPath "/products" (req_path req) = false ->
      status (app rt req) = 404 /\ allow (app rt req) = None).
Proof.
  intros Hm Hjson. rewrite app_eq, Hjson. cbn [Express.handle]. rewrite Hm.
  cbn [Express.handles_method]. split.
  - intros Hmatch.
    assert (Hsend : forall options,
      status (Express.sendOptionsResponse rt req options) = 200
      /\ is_Some (allow (Express.sendOptionsResponse rt req options))).
    { intros options. unfold Express.sendOptionsResponse.
      destruct (send_options rt req (Some (Text.join "," options)) "text/html"
                  (Text.join "," options) Hm) as [-> ->]. split; [reflexivity | eauto]. }
    destruct (Express.matchPath "/products" (req_path req)) eqn:Hproducts.
    + rewrite (routes_disjoint _ Hproducts). apply Hsend.
    + destruct Hmatch as [-> | Hfalse]; [apply Hsend | discriminate].
  - intros [-> ->]. split; reflexivity.
Qed.

Lemma options_answer_witness :
  (status (app Sample.runtime (Sample.request OPTIONS "/products")) = 200
   /\ is_Some (allow (app Sample.runtime (Sample.request OPTIONS "/products"))))
  /\ (status (app Sample.runtime (Sample.request OPTIONS "/unknown")) = 404
      /\ allow (app Sample.runtime (Sample.request OPTIONS "/unknown")) = None).
Proof.
  split.
  - apply (options_answer Sample.runtime (Sample.request OPTIONS "/products"));
      [reflexivity | vm_compute; reflexivity | right; vm_compute; reflexivity].
  - apply (options_answer Sample.runtime (Sample.request OPTIONS "/unknown"));
      [reflexivity | vm_compute; reflexivity | split; vm_compute; reflexivity].
Defined.

